(** * A booking-request API (server.js): model and verified properties

    The Express server of the repository answers four routes over a JSON
    file used as a database:

      GET   /api/check               is a date/time slot free?
      POST  /api/requests            create a booking request
      GET   /api/admin/requests      list all requests
      PATCH /api/admin/requests/:id  change the status of a request

    The handlers are embedded as functions of the request's inputs and of
    the state of the data file.  Inputs are JavaScript values as
    [JSON.parse] and the query-string parser produce them, and the
    coercions the handlers rely on ([!x], [x || y], [Number(x)], template
    literals, [RegExp.prototype.test]) follow ECMAScript. *)

From Stdlib Require Import ZArith List String Ascii Bool Lia DecimalString SpecFloat.
Import ListNotations.

#[local] Set Warnings "-register-all".
#[local] Open Scope string_scope.
#[local] Open Scope list_scope.
#[local] Open Scope Z_scope.

(** ** JavaScript values *)

(** A number as it is written, [mant * 10 ^ expo]: a JSON number literal
    or the digits of a numeric string.  Its value in the program is the
    double nearest to it, [Fin] below. *)
Record decimal := { mant : Z; expo : Z }.

(** The Number type: IEEE 754 binary64, with the operations of the
    Standard Library's specification of floating-point arithmetic (round
    to nearest, ties to even). *)
Definition number := spec_float.

Definition prec64 : Z := 53.
Definition emax64 : Z := 1024.

Definition NaN : number := S754_nan.
Definition Inf (negative : bool) : number := S754_infinity negative.

(** A value as [JSON.parse] builds it.  Strings are sequences of code
    units below 256; an object is the list of its own properties. *)
Inductive json :=
| JNull
| JBool (b : bool)
| JNum (d : decimal)
| JStr (s : string)
| JArr (items : list json)
| JObj (props : list (string * json)).

(** A variable of a handler: [None] is [undefined] (the property is absent
    from [req.body] or [req.query]). *)
Definition value := option json.
Definition undefined : value := None.

Definition int (z : Z) : decimal := {| mant := z; expo := 0 |}.

(** *** Arithmetic on numbers *)

(** The double nearest to [m * 10 ^ e10], with the sign [s]: an integer is
    rounded as it is, a fraction is the correctly rounded quotient by the
    power of ten.  A value too large is an infinity, one too small a
    zero. *)
Definition round_decimal (s : bool) (m : positive) (e10 : Z) : number :=
  match e10 with
  | Zneg k =>
      let '(mz, ez, lz) :=
        SFdiv_core_binary prec64 emax64 (Zpos m) 0 (Zpos (10 ^ k)) 0 in
      binary_round_aux prec64 emax64 s mz ez lz
  | _ => binary_round prec64 emax64 s (m * Z.to_pos (10 ^ e10)) 0
  end.

(** The value of a written number: what [JSON.parse] and [Number] make of
    its digits. *)
Definition Fin (d : decimal) : number :=
  match mant d with
  | Z0 => S754_zero false
  | Zpos m => round_decimal false m (expo d)
  | Zneg m => round_decimal true m (expo d)
  end.

(** [x * y] on Numbers. *)
Definition nmul : number -> number -> number := SFmul prec64 emax64.

(** [x + y] on Numbers. *)
Definition nadd : number -> number -> number := SFadd prec64 emax64.

Definition is_zero (x : number) : bool :=
  match x with
  | S754_zero _ => true
  | _ => false
  end.

Definition is_nan (x : number) : bool :=
  match x with
  | S754_nan => true
  | _ => false
  end.

(** The same double, bit for bit. *)
Definition number_eqb (x y : number) : bool :=
  match x, y with
  | S754_zero s, S754_zero t => Bool.eqb s t
  | S754_infinity s, S754_infinity t => Bool.eqb s t
  | S754_nan, S754_nan => true
  | S754_finite s m e, S754_finite t n f => Bool.eqb s t && Pos.eqb m n && (e =? f)
  | _, _ => false
  end.

(** *** The shortest digits of a double

    Number::toString and [JSON.stringify] write a finite double with the
    fewest digits [s] (at most 17) such that [s * 10 ^ (n - k)] reads back
    as the same double, the closest to it when several do. *)

(** [m * 2 ^ e] as a fraction. *)
Definition ratio (m : positive) (e : Z) : Z * Z :=
  match e with
  | Zneg k => (Zpos m, 2 ^ Zpos k)
  | _ => (Zpos m * 2 ^ e, 1)
  end.

(** [p / q < 10 ^ n] *)
Definition below_pow10 (p q n : Z) : bool :=
  match n with
  | Zneg k => p * 10 ^ Zpos k <? q
  | _ => p <? q * 10 ^ n
  end.

(** The [n] with [10 ^ (n - 1) <= p / q < 10 ^ n], found next to its
    estimate from the binary logarithms. *)
Definition decimal_exponent (p q : Z) : Z :=
  let est := ((Z.log2 p - Z.log2 q) * 30103) / 100000 in
  match find (below_pow10 p q) [est - 1; est; est + 1; est + 2] with
  | Some n => n
  | None => est + 3
  end.

(** The [k]-digit number that reads back as [x], if there is one: one of
    the two [k]-digit neighbours of [p / q]. *)
Definition candidate (x : number) (p q n k : Z) : option decimal :=
  let sc := n - k in
  let '(num, den) :=
    match sc with
    | Zneg j => (p * 10 ^ Zpos j, q)
    | _ => (p, q * 10 ^ sc)
    end in
  let s1 := num / den in
  let r := num mod den in
  let d1 := {| mant := s1; expo := sc |} in
  let d2 := if s1 + 1 =? 10 ^ k then {| mant := 1; expo := n |}
            else {| mant := s1 + 1; expo := sc |} in
  let ok1 := (0 <? s1) && number_eqb (Fin d1) x in
  let ok2 := number_eqb (Fin d2) x in
  if ok1 && ok2 then
    Some match 2 * r ?= den with
         | Lt => d1
         | Gt => d2
         | Eq => if Z.even s1 then d1 else d2
         end
  else if ok1 then Some d1
  else if ok2 then Some d2
  else None.

Fixpoint first_candidate (x : number) (p q n : Z) (ks : list Z) : option decimal :=
  match ks with
  | [] => None
  | k :: rest =>
      match candidate x p q n k with
      | Some d => Some d
      | None => first_candidate x p q n rest
      end
  end.

(** All the digits of [m * 2 ^ e]. *)
Definition exact_decimal (m : positive) (e : Z) : decimal :=
  match e with
  | Zneg k => {| mant := Zpos m * 5 ^ Zpos k; expo := e |}
  | _ => {| mant := Zpos m * 2 ^ e; expo := 0 |}
  end.

(** The shortest digits of the finite double of sign [s], mantissa [m] and
    exponent [e]; an integer is written without exponent. *)
Definition shortest (s : bool) (m : positive) (e : Z) : decimal :=
  let '(p, q) := ratio m e in
  let d :=
    match first_candidate (S754_finite false m e) p q (decimal_exponent p q)
                          [1; 2; 3; 4; 5; 6; 7; 8; 9; 10; 11; 12; 13; 14; 15; 16; 17] with
    | Some d => d
    | None => exact_decimal m e
    end in
  let '(a, sc) :=
    match expo d with
    | Zneg _ => (mant d, expo d)
    | _ => (mant d * 10 ^ expo d, 0)
    end in
  {| mant := if s then Zneg (Z.to_pos a) else Zpos (Z.to_pos a); expo := sc |}.

(** *** Characters *)

Definition code (c : ascii) : Z := Z.of_nat (nat_of_ascii c).

Definition is_digit (c : ascii) : bool := (48 <=? code c) && (code c <=? 57).

(** StrWhiteSpaceChar below 256: TAB, LF, VT, FF, CR, SP, NBSP. *)
Definition is_space (c : ascii) : bool :=
  ((9 <=? code c) && (code c <=? 13)) || (code c =? 32) || (code c =? 160).

(** The value of a digit in a radix up to 16, if it is one. *)
Definition digit_value (radix : Z) (c : ascii) : option Z :=
  let n := code c in
  let v := if (48 <=? n) && (n <=? 57) then n - 48
           else if (97 <=? n) && (n <=? 102) then n - 87
           else if (65 <=? n) && (n <=? 70) then n - 55
           else 16 in
  if v <? radix then Some v else None.

(** Reads a non-empty run of digits that must cover all of [l]. *)
Fixpoint digits_value (radix acc : Z) (l : list ascii) : option Z :=
  match l with
  | [] => Some acc
  | c :: t =>
      match digit_value radix c with
      | Some v => digits_value radix (acc * radix + v) t
      | None => None
      end
  end.

Definition all_digits (radix : Z) (l : list ascii) : option Z :=
  match l with
  | [] => None
  | _ => digits_value radix 0 l
  end.

Fixpoint span (p : ascii -> bool) (l : list ascii) : list ascii * list ascii :=
  match l with
  | [] => ([], [])
  | c :: t =>
      if p c then let '(a, b) := span p t in (c :: a, b) else ([], l)
  end.

Fixpoint dropWhile (p : ascii -> bool) (l : list ascii) : list ascii :=
  match l with
  | [] => []
  | c :: t => if p c then dropWhile p t else l
  end.

Definition trim (l : list ascii) : list ascii :=
  rev (dropWhile is_space (rev (dropWhile is_space l))).

Definition chars (s : string) : list ascii := list_ascii_of_string s.
Definition text (l : list ascii) : string := string_of_list_ascii l.

Definition decimal_digits (z : Z) : list ascii :=
  chars (NilZero.string_of_uint (N.to_uint (Z.to_N z))).

(** *** Number to string (Number::toString, radix 10) *)

(** The digits [d], laid out as Number::toString lays out [s], [k], [n]. *)
Definition print_decimal (d : decimal) : string :=
  if mant d =? 0 then "0"
  else
    let all := decimal_digits (Z.abs (mant d)) in
    let s := rev (dropWhile (Ascii.eqb "0") (rev all)) in
    let k := Z.of_nat (List.length s) in
    let n := Z.of_nat (List.length all) + expo d in
    let zeros (z : Z) := repeat "0"%char (Z.to_nat z) in
    let body :=
      if (-5 <=? n) && (n <=? 21) then
        if k <=? n then s ++ zeros (n - k)
        else if 0 <? n then
          firstn (Z.to_nat n) s ++ "."%char :: skipn (Z.to_nat n) s
        else "0"%char :: "."%char :: zeros (- n) ++ s
      else
        let exponent :=
          "e"%char :: (if n <? 0 then "-"%char else "+"%char)
                   :: decimal_digits (Z.abs (n - 1)) in
        match s with
        | [] => []
        | [c] => c :: exponent
        | c :: rest => c :: "."%char :: rest ++ exponent
        end in
    text ((if mant d <? 0 then ["-"%char] else []) ++ body).

Definition number_to_string (x : number) : string :=
  match x with
  | S754_nan => "NaN"
  | S754_infinity false => "Infinity"
  | S754_infinity true => "-Infinity"
  | S754_zero _ => "0"
  | S754_finite s m e => print_decimal (shortest s m e)
  end.

(** The text of a written number: that of its value. *)
Definition NumberToString (d : decimal) : string := number_to_string (Fin d).

(** *** String to number (StringToNumber) *)

(** ExponentPart opt, up to the end of the input. *)
Definition exponent_part (l : list ascii) : option Z :=
  match l with
  | [] => Some 0
  | c :: t =>
      if Ascii.eqb c "e" || Ascii.eqb c "E" then
        match t with
        | "+"%char :: ds => all_digits 10 ds
        | "-"%char :: ds => option_map Z.opp (all_digits 10 ds)
        | ds => all_digits 10 ds
        end
      else None
  end.

(** StrUnsignedDecimalLiteral other than Infinity:
    digits [. digits?] exp?  or  . digits exp? *)
Definition unsigned_decimal (l : list ascii) : option decimal :=
  let '(ip, r1) := span is_digit l in
  let '(fp, r2) :=
    match r1 with
    | "."%char :: r => span is_digit r
    | _ => ([], r1)
    end in
  match ip ++ fp with
  | [] => None
  | ds =>
      match digits_value 10 0 ds, exponent_part r2 with
      | Some m, Some e => Some {| mant := m; expo := e - Z.of_nat (List.length fp) |}
      | _, _ => None
      end
  end.

Definition infinity_chars : list ascii := chars "Infinity".

Definition list_ascii_eqb (a b : list ascii) : bool :=
  String.eqb (text a) (text b).

Definition unsigned_literal (l : list ascii) : number :=
  if list_ascii_eqb l infinity_chars then Inf false
  else match unsigned_decimal l with
       | Some d => Fin d
       | None => NaN
       end.

Definition nneg (x : number) : number := SFopp x.

(** NonDecimalIntegerLiteral: 0x, 0o, 0b in either case, unsigned. *)
Definition non_decimal (l : list ascii) : option number :=
  match l with
  | "0"%char :: p :: ds =>
      let radix :=
        if Ascii.eqb p "x" || Ascii.eqb p "X" then Some 16
        else if Ascii.eqb p "o" || Ascii.eqb p "O" then Some 8
        else if Ascii.eqb p "b" || Ascii.eqb p "B" then Some 2
        else None in
      match radix with
      | Some r =>
          Some match all_digits r ds with
               | Some m => Fin (int m)
               | None => NaN
               end
      | None => None
      end
  | _ => None
  end.

Definition StringToNumber (s : string) : number :=
  match trim (chars s) with
  | [] => Fin (int 0)
  | "+"%char :: l => unsigned_literal l
  | "-"%char :: l => nneg (unsigned_literal l)
  | l =>
      match non_decimal l with
      | Some x => x
      | None => unsigned_literal l
      end
  end.

(** *** Coercions *)

Definition has_own (props : list (string * json)) (key : string) : bool :=
  existsb (fun kv => String.eqb (fst kv) key) props.

(** ToString on a parsed value.  [None] is a thrown TypeError: an object
    whose own "toString" property shadows [Object.prototype.toString] with
    a value that cannot be called has no primitive value.  An array prints
    as [join(",")], with null elements printed as the empty string. *)
Fixpoint json_to_string (v : json) : option string :=
  match v with
  | JNull => Some "null"
  | JBool b => Some (if b then "true" else "false")
  | JNum d => Some (NumberToString d)
  | JStr s => Some s
  | JArr items =>
      (fix join (l : list json) : option string :=
         match l with
         | [] => Some EmptyString
         | x :: t =>
             match (match x with JNull => Some EmptyString | _ => json_to_string x end) with
             | None => None
             | Some sx =>
                 match t with
                 | [] => Some sx
                 | _ => option_map (fun st => (sx ++ "," ++ st)%string) (join t)
                 end
             end
         end) items
  | JObj props =>
      if has_own props "toString" then None else Some "[object Object]"
  end.

Definition ToString (v : value) : option string :=
  match v with
  | None => Some "undefined"
  | Some j => json_to_string j
  end.

(** ToNumber; arrays and objects go through their primitive value, which
    is the string above. *)
Definition json_to_number (v : json) : option number :=
  match v with
  | JNull => Some (Fin (int 0))
  | JBool b => Some (Fin (int (if b then 1 else 0)))
  | JNum d => Some (Fin d)
  | JStr s => Some (StringToNumber s)
  | JArr _ | JObj _ => option_map StringToNumber (json_to_string v)
  end.

(** [Number(v)] *)
Definition Number (v : value) : option number :=
  match v with
  | None => Some NaN
  | Some j => json_to_number j
  end.

(** ToBoolean: what [!v], [v || w] and [v ? a : b] test. *)
Definition ToBoolean (v : value) : bool :=
  match v with
  | None | Some JNull => false
  | Some (JBool b) => b
  | Some (JNum d) => negb (is_zero (Fin d))
  | Some (JStr s) => negb (String.eqb s EmptyString)
  | Some (JArr _) | Some (JObj _) => true
  end.

(** [v || w] *)
Definition or_else (v w : value) : value := if ToBoolean v then v else w.

(** [v === "literal"] *)
Definition strict_eq_string (v : value) (s : string) : bool :=
  match v with
  | Some (JStr t) => String.eqb t s
  | _ => false
  end.

(** [JSON.stringify] of a Number, read back: a finite number is written
    with its shortest digits, NaN and the infinities as null. *)
Definition stringify_number (x : number) : json :=
  match x with
  | S754_zero _ => JNum (int 0)
  | S754_finite s m e => JNum (shortest s m e)
  | S754_nan | S754_infinity _ => JNull
  end.

(** ** Helpers of server.js *)

(** The two regular expressions are anchored sequences of [\d] and literal
    characters, so a pattern is a list of atoms and [test] succeeds when
    the atoms consume the whole string. *)
Inductive atom :=
| Digit
| Lit (c : ascii).

Definition atom_matches (a : atom) (c : ascii) : bool :=
  match a with
  | Digit => is_digit c
  | Lit l => Ascii.eqb l c
  end.

Fixpoint matches (re : list atom) (s : list ascii) : bool :=
  match re, s with
  | [], [] => true
  | a :: re', c :: s' => atom_matches a c && matches re' s'
  | _, _ => false
  end.

(** [re.test(v)]: the argument is first converted with ToString. *)
Definition test (re : list atom) (v : value) : option bool :=
  option_map (fun s => matches re (chars s)) (ToString v).

(** /^\d{4}-\d{2}-\d{2}$/ *)
Definition date_re : list atom :=
  [Digit; Digit; Digit; Digit; Lit "-"; Digit; Digit; Lit "-"; Digit; Digit].

(** /^\d{2}:\d{2}$/ *)
Definition time_re : list atom := [Digit; Digit; Lit ":"; Digit; Digit].

Definition isValidDateYYYYMMDD (dateStr : value) : option bool := test date_re dateStr.

Definition isValidTimeHHMM (timeStr : value) : option bool := test time_re timeStr.

(** [`${date} ${time}`] *)
Definition makeDateTimeKey (date time : value) : option string :=
  match ToString date, ToString time with
  | Some d, Some t => Some (d ++ " " ++ t)%string
  | _, _ => None
  end.

(** ** The data file *)

(** A row of requests.json.  The fields the server computes itself are
    strings; the others hold whatever the client sent ([None]: the property
    is absent).  The rows are the records as [JSON.stringify] writes them
    and [JSON.parse] reads them back. *)
Record request := {
  id : string;
  createdAt : string;
  status : string;
  fullName : value;
  email : value;
  phone : value;
  serviceType : value;
  propertyType : value;
  address : value;
  bedrooms : value;
  bathrooms : value;
  frequency : value;
  date : value;
  time : value;
  dateTime : string;
  notes : value;
  estimateUSD : value
}.

(** What [readRequestsSafe] can find at REQUESTS_FILE: no file, only white
    space, text that [JSON.parse] rejects, JSON that is not an array, or an
    array of rows (the file is written by the server only, so the elements
    of the array are records as above). *)
Inductive contents :=
| Missing
| Blank
| BadJSON
| NotArray
| Rows (rows : list request).

(** The file, and the arguments of the calls of [writeRequests] so far
    (latest first), kept to tell a handler that saves from one that does
    not. *)
Record disk := {
  REQUESTS_FILE : contents;
  saved : list (list request)
}.

(** The rows a file holds for the server. *)
Definition stored (d : disk) : list request :=
  match REQUESTS_FILE d with
  | Rows rows => rows
  | _ => []
  end.

(** ** Handlers *)

(** The body of a response. *)
Inductive payload :=
| HealthJson (ok : bool)
| ErrorJson (error : string)
| CheckJson (available : bool) (dateTime : string)
| RequestJson (request : request)
| RequestsJson (requests : list request).

(** A handler runs on the disk and either goes on with a value, has sent
    its response ([return res.status(code).json(b)]) or has thrown. *)
Inductive step (A : Type) :=
| Next (a : A)
| Reply (code : Z) (b : payload)
| Throw.

Arguments Next {A} a.
Arguments Reply {A} code b.
Arguments Throw {A}.

Definition handler (A : Type) := disk -> step A * disk.

Definition ret {A} (a : A) : handler A := fun d => (Next a, d).

Definition bind {A B} (m : handler A) (k : A -> handler B) : handler B :=
  fun d =>
    match m d with
    | (Next a, d') => k a d'
    | (Reply code b, d') => (Reply code b, d')
    | (Throw, d') => (Throw, d')
    end.

Definition reply {A} (code : Z) (b : payload) : handler A := fun d => (Reply code b, d).

(** A coercion that may throw a TypeError. *)
Definition js {A} (o : option A) : handler A :=
  fun d => match o with Some a => (Next a, d) | None => (Throw, d) end.

Notation "x <- m ;; k" := (bind m (fun x => k))
  (at level 61, m at next level, right associativity).
Notation "m ;; k" := (bind m (fun _ => k))
  (at level 61, right associativity).

Definition writeFile (c : contents) : handler unit :=
  fun d => (Next tt, {| REQUESTS_FILE := c; saved := saved d |}).

Definition readFile : handler contents := fun d => (Next (REQUESTS_FILE d), d).

Definition ensureDataFile : handler unit :=
  c <- readFile ;;
  match c with
  | Missing => writeFile (Rows [])
  | _ => ret tt
  end.

Definition readRequestsSafe : handler (list request) :=
  ensureDataFile ;;
  c <- readFile ;;
  match c with
  | Missing | Blank => ret []
  | BadJSON => writeFile (Rows []) ;; ret []
  | NotArray => ret []
  | Rows rows => ret rows
  end.

Definition writeRequests (rows : list request) : handler unit :=
  ensureDataFile ;;
  fun d => (Next tt, {| REQUESTS_FILE := Rows rows; saved := rows :: saved d |}).

(** [requests.some(f)] *)
Definition some {A} (f : A -> bool) (l : list A) : bool := existsb f l.

(** [requests.findIndex(f)], -1 when no element passes. *)
Fixpoint findIndex_from {A} (f : A -> bool) (l : list A) (i : Z) : Z :=
  match l with
  | [] => -1
  | x :: t => if f x then i else findIndex_from f t (i + 1)
  end.

Definition findIndex {A} (f : A -> bool) (l : list A) : Z := findIndex_from f l 0.

(** [requests[idx]], [None] when there is no such element. *)
Definition item {A} (l : list A) (idx : Z) : option A :=
  if idx <? 0 then None else nth_error l (Z.to_nat idx).

Fixpoint update {A} (n : nat) (f : A -> A) (l : list A) : list A :=
  match l, n with
  | [], _ => []
  | x :: t, O => f x :: t
  | x :: t, S m => x :: update m f t
  end.

Definition with_status (s : string) (r : request) : request :=
  {| id := id r; createdAt := createdAt r; status := s;
     fullName := fullName r; email := email r; phone := phone r;
     serviceType := serviceType r; propertyType := propertyType r;
     address := address r; bedrooms := bedrooms r; bathrooms := bathrooms r;
     frequency := frequency r; date := date r; time := time r;
     dateTime := dateTime r; notes := notes r; estimateUSD := estimateUSD r |}.

(** [requests[idx].status = s]: the element is changed in place; assigning
    to a property of [undefined] throws. *)
Definition assign_status (l : list request) (idx : Z) (s : string)
  : option (list request) :=
  match item l idx with
  | Some _ => Some (update (Z.to_nat idx) (with_status s) l)
  | None => None
  end.

(** The test both /api/check and /api/requests run on every row. *)
Definition occupies (key : string) (r : request) : bool :=
  String.eqb (dateTime r) key && negb (String.eqb (status r) "cancelled").

(** GET /api/health *)
Definition get_api_health : handler Empty_set := reply 200 (HealthJson true).

(** GET /api/check?date=YYYY-MM-DD&time=HH:MM *)
Definition get_api_check (date time : value) : handler Empty_set :=
  if negb (ToBoolean date) || negb (ToBoolean time) then
    reply 400 (ErrorJson "Missing date or time.")
  else
  okDate <- js (isValidDateYYYYMMDD date) ;;
  if negb okDate then reply 400 (ErrorJson "Date must be YYYY-MM-DD.") else
  okTime <- js (isValidTimeHHMM time) ;;
  if negb okTime then reply 400 (ErrorJson "Time must be HH:MM (24-hour).") else
  requests <- readRequestsSafe ;;
  dateTime <- js (makeDateTimeKey date time) ;;
  let conflict := some (occupies dateTime) requests in
  reply 200 (CheckJson (negb conflict) dateTime).

(** The fields the handler destructures from [req.body]. *)
Record body := {
  body_fullName : value;
  body_email : value;
  body_phone : value;
  body_serviceType : value;
  body_propertyType : value;
  body_address : value;
  body_bedrooms : value;
  body_bathrooms : value;
  body_frequency : value;
  body_date : value;
  body_time : value;
  body_notes : value
}.

(** What creation takes from outside the request:
    [Math.random().toString(16).slice(2)], [Date.now().toString(16)] and
    [new Date().toISOString()]. *)
Record clock := {
  random_hex : string;
  now_hex : string;
  now_iso : string
}.

Definition zero : value := Some (JNum (int 0)).

(** POST /api/requests *)
Definition post_api_requests (b : body) (c : clock) : handler Empty_set :=
  let '(Build_body fullName email phone serviceType propertyType address
                   bedrooms bathrooms frequency date time notes) := b in
  if negb (ToBoolean fullName) || negb (ToBoolean email) || negb (ToBoolean phone)
     || negb (ToBoolean serviceType) || negb (ToBoolean propertyType)
     || negb (ToBoolean address) || negb (ToBoolean date) || negb (ToBoolean time)
  then reply 400 (ErrorJson "Missing required fields.") else
  okDate <- js (isValidDateYYYYMMDD date) ;;
  if negb okDate then reply 400 (ErrorJson "Date must be YYYY-MM-DD.") else
  okTime <- js (isValidTimeHHMM time) ;;
  if negb okTime then reply 400 (ErrorJson "Time must be HH:MM (24-hour).") else
  requests <- readRequestsSafe ;;
  dateTime <- js (makeDateTimeKey date time) ;;
  let conflict := some (occupies dateTime) requests in
  if conflict then reply 409 (ErrorJson "That date/time is already booked.") else
  let base := Fin (int (if strict_eq_string serviceType "deep" then 180 else 120)) in
  beds <- js (Number (or_else bedrooms zero)) ;;
  let bed := nmul beds (Fin (int 20)) in
  baths <- js (Number (or_else bathrooms zero)) ;;
  let bath := nmul baths (Fin (int 15)) in
  let commercial :=
    Fin (int (if strict_eq_string propertyType "commercial" then 60 else 0)) in
  let estimate := nadd (nadd (nadd base bed) bath) commercial in
  (* [newRequest] is built as [res.json] and [writeRequests] serialise it:
     a NaN or infinite room count or estimate is written as null. *)
  bedroomsField <-
    (if ToBoolean bedrooms then js (option_map stringify_number (Number bedrooms))
     else ret JNull) ;;
  bathroomsField <-
    (if ToBoolean bathrooms then js (option_map stringify_number (Number bathrooms))
     else ret JNull) ;;
  let newRequest :=
    {| id := (random_hex c ++ now_hex c)%string;
       createdAt := now_iso c;
       status := "pending";
       fullName := fullName;
       email := email;
       phone := phone;
       serviceType := serviceType;
       propertyType := propertyType;
       address := address;
       bedrooms := Some bedroomsField;
       bathrooms := Some bathroomsField;
       frequency := or_else frequency (Some (JStr "one-time"));
       date := date;
       time := time;
       dateTime := dateTime;
       notes := or_else notes (Some (JStr EmptyString));
       estimateUSD := Some (stringify_number estimate) |} in
  let requests := newRequest :: requests in
  writeRequests requests ;;
  reply 201 (RequestJson newRequest).

(** The middleware of the admin routes: [expected] is the ADMIN_KEY of the
    environment and [got] the x-admin-key header of the request, each the
    empty string when not set; [next] is the handler of the route. *)
Definition requireAdminKey (expected got : string) (next : handler Empty_set)
  : handler Empty_set :=
  if String.eqb expected EmptyString then reply 500 (ErrorJson "ADMIN_KEY not set.")
  else if negb (String.eqb got expected) then reply 401 (ErrorJson "Unauthorized.")
  else next.

(** GET /api/admin/requests (after [requireAdminKey] has let the call in) *)
Definition get_api_admin_requests : handler Empty_set :=
  requests <- readRequestsSafe ;;
  reply 200 (RequestsJson requests).

Definition allowed : list string := ["pending"; "confirmed"; "completed"; "cancelled"].

(** [allowed.has(status)]: a Set of strings has only strings; the answer
    carries the string found. *)
Definition allowed_has (status : value) : option string :=
  match status with
  | Some (JStr s) => if existsb (String.eqb s) allowed then Some s else None
  | _ => None
  end.

(** PATCH /api/admin/requests/:id (after [requireAdminKey]) *)
Definition patch_api_admin_requests_id (id' : string) (status : value)
  : handler Empty_set :=
  match allowed_has status with
  | None => reply 400 (ErrorJson "Invalid status.")
  | Some s =>
      requests <- readRequestsSafe ;;
      let idx := findIndex (fun r => String.eqb (id r) id') requests in
      if idx =? -1 then reply 404 (ErrorJson "Not found.") else
      requests <- js (assign_status requests idx s) ;;
      writeRequests requests ;;
      updated <- js (item requests idx) ;;
      reply 200 (RequestJson updated)
  end.

(** ** Sequences of calls *)

Inductive call :=
| CallCheck (date time : value)
| CallCreate (b : body) (c : clock)
| CallList
| CallPatch (id' : string) (status : value).

Definition serve (c : call) : handler Empty_set :=
  match c with
  | CallCheck date time => get_api_check date time
  | CallCreate b c => post_api_requests b c
  | CallList => get_api_admin_requests
  | CallPatch id' status => patch_api_admin_requests_id id' status
  end.

(** The disk after the calls, served one after the other. *)
Fixpoint run (calls : list call) (d : disk) : disk :=
  match calls with
  | [] => d
  | c :: rest => run rest (snd (serve c d))
  end.

(** Creations served one after the other, with their responses. *)
Fixpoint create_all (inputs : list (body * clock)) (d : disk)
  : list (step Empty_set) * disk :=
  match inputs with
  | [] => ([], d)
  | (b, c) :: rest =>
      let '(out, d1) := post_api_requests b c d in
      let '(outs, d2) := create_all rest d1 in
      (out :: outs, d2)
  end.

(** ** Vocabulary of the properties *)

(** The disk once [readRequestsSafe] has run: a missing or unparsable file
    has been replaced by an empty array. *)
Definition repaired (d : disk) : disk :=
  match REQUESTS_FILE d with
  | Missing | BadJSON => {| REQUESTS_FILE := Rows []; saved := saved d |}
  | _ => d
  end.


(** The eight required fields of a body. *)
Definition required (b : body) : list value :=
  [body_fullName b; body_email b; body_phone b; body_serviceType b;
   body_propertyType b; body_address b; body_date b; body_time b].

(** All required fields are filled in: each is truthy, which for a string
    means non-empty. *)
Definition filled (b : body) : bool := forallb ToBoolean (required b).

(** Neither an array nor an object. *)
Definition primitive (v : value) : bool :=
  match v with
  | Some (JArr _) | Some (JObj _) => false
  | _ => true
  end.

(** [r'] is [r] with, possibly, another status. *)
Definition same_but_status (r r' : request) : Prop :=
  id r' = id r /\ createdAt r' = createdAt r /\ fullName r' = fullName r /\
  email r' = email r /\ phone r' = phone r /\ serviceType r' = serviceType r /\
  propertyType r' = propertyType r /\ address r' = address r /\
  bedrooms r' = bedrooms r /\ bathrooms r' = bathrooms r /\
  frequency r' = frequency r /\ date r' = date r /\ time r' = time r /\
  dateTime r' = dateTime r /\ notes r' = notes r /\ estimateUSD r' = estimateUSD r.

(** [new] is [old] after some calls: records have been put in front, and
    the records of [old] are still there, in place, up to their status. *)
Definition evolved (old new : list request) : Prop :=
  exists fresh old', new = fresh ++ old' /\ Forall2 same_but_status old old'.

(** The file holds an array of rows. *)
Definition holds_rows (d : disk) : Prop := exists rows, REQUESTS_FILE d = Rows rows.

(** A stored field that is null or a number that is not negative. *)
Definition null_or_nonneg (v : value) : bool :=
  match v with
  | Some JNull => true
  | Some (JNum d) => 0 <=? mant d
  | _ => false
  end.

(** A finite number below zero. *)
Definition negative (x : number) : bool :=
  match x with
  | S754_finite true _ _ => true
  | _ => false
  end.

(** The response of a handler is its success response. *)
Definition succeeded (out : step Empty_set) : bool :=
  match out with
  | Reply code _ => (code =? 200) || (code =? 201)
  | _ => false
  end.

(** The price terms of the estimate. *)
Definition base_of (serviceType : value) : number :=
  Fin (int (if strict_eq_string serviceType "deep" then 180 else 120)).

Definition commercial_of (propertyType : value) : number :=
  Fin (int (if strict_eq_string propertyType "commercial" then 60 else 0)).

(** The estimate, from the two coerced room counts. *)
Definition estimate (b : body) (beds baths : number) : number :=
  nadd (nadd (nadd (base_of (body_serviceType b)) (nmul beds (Fin (int 20))))
             (nmul baths (Fin (int 15))))
       (commercial_of (body_propertyType b)).

(** The record a creation answers with, from the key of its slot and the
    two coerced room counts. *)
Definition created (b : body) (c : clock) (key : string) (beds baths : number)
  : request :=
  {| id := (random_hex c ++ now_hex c)%string;
     createdAt := now_iso c;
     status := "pending";
     fullName := body_fullName b;
     email := body_email b;
     phone := body_phone b;
     serviceType := body_serviceType b;
     propertyType := body_propertyType b;
     address := body_address b;
     bedrooms :=
       Some (if ToBoolean (body_bedrooms b) then stringify_number beds else JNull);
     bathrooms :=
       Some (if ToBoolean (body_bathrooms b) then stringify_number baths else JNull);
     frequency := or_else (body_frequency b) (Some (JStr "one-time"));
     date := body_date b;
     time := body_time b;
     dateTime := key;
     notes := or_else (body_notes b) (Some (JStr EmptyString));
     estimateUSD := Some (stringify_number (estimate b beds baths)) |}.

(** The estimate as the specification words it: a room count that is
    absent, not numeric or negative counts for 0. *)
Definition spec_rooms (v : value) : number :=
  match Number (or_else v zero) with
  | Some x =>
      if is_nan x || SFltb x (S754_zero false) then Fin (int 0) else x
  | None => Fin (int 0)
  end.

Definition spec_estimateUSD (b : body) : number :=
  nadd (nadd (nadd (base_of (body_serviceType b))
                   (nmul (Fin (int 20)) (spec_rooms (body_bedrooms b))))
             (nmul (Fin (int 15)) (spec_rooms (body_bathrooms b))))
       (commercial_of (body_propertyType b)).

(** ** Sample inputs *)

Definition str (s : string) : value := Some (JStr s).
Definition num (z : Z) : value := Some (JNum (int z)).

Definition sample_body : body :=
  {| body_fullName := str "Ada Lovelace";
     body_email := str "ada@example.com";
     body_phone := str "555-0100";
     body_serviceType := str "standard";
     body_propertyType := str "residential";
     body_address := str "1 Main Street";
     body_bedrooms := num 3;
     body_bathrooms := num 2;
     body_frequency := undefined;
     body_date := str "2025-06-01";
     body_time := str "10:00";
     body_notes := undefined |}.

Definition with_optional (bedrooms bathrooms frequency notes : value) (b : body)
  : body :=
  {| body_fullName := body_fullName b; body_email := body_email b;
     body_phone := body_phone b; body_serviceType := body_serviceType b;
     body_propertyType := body_propertyType b; body_address := body_address b;
     body_bedrooms := bedrooms; body_bathrooms := bathrooms;
     body_frequency := frequency; body_date := body_date b;
     body_time := body_time b; body_notes := notes |}.

Definition with_rooms (bedrooms bathrooms : value) (b : body) : body :=
  with_optional bedrooms bathrooms (body_frequency b) (body_notes b) b.

Definition with_slot (date time : value) (b : body) : body :=
  {| body_fullName := body_fullName b; body_email := body_email b;
     body_phone := body_phone b; body_serviceType := body_serviceType b;
     body_propertyType := body_propertyType b; body_address := body_address b;
     body_bedrooms := body_bedrooms b; body_bathrooms := body_bathrooms b;
     body_frequency := body_frequency b; body_date := date;
     body_time := time; body_notes := body_notes b |}.


(** Bodies whose bedrooms input is a negative number, a text that is not a
    number, and zero. *)
Definition negative_rooms_body : body := with_rooms (num (-3)) undefined sample_body.

Definition text_rooms_body : body := with_rooms (str "many") undefined sample_body.

Definition zero_rooms_body : body := with_rooms (num 0) (num 0) sample_body.

Definition sample_clock : clock :=
  {| random_hex := "8f3a1c09d2"; now_hex := "196f0a1b2c3";
     now_iso := "2025-05-20T09:00:00.000Z" |}.

Definition later_clock : clock :=
  {| random_hex := "c41e77a0b5"; now_hex := "196f0a1ffff";
     now_iso := "2025-05-20T09:00:16.000Z" |}.

(** The disk after [sample_body] has been booked on a fresh installation. *)
Definition booked_disk : disk :=
  snd (post_api_requests sample_body sample_clock
                         {| REQUESTS_FILE := Missing; saved := [] |}).

Definition empty_disk : disk := {| REQUESTS_FILE := Rows []; saved := [] |}.

Definition no_disk : disk := {| REQUESTS_FILE := Missing; saved := [] |}.

(** ** The admin routes behind their middleware *)

(** [x || empty] on a string that may be unset. *)
Definition or_empty (o : option string) : string :=
  match o with
  | Some s => s
  | None => EmptyString
  end.

(** [app.get("/api/admin/requests", requireAdminKey, ...)]: [ADMIN_KEY] is
    the variable of the environment and [header] the x-admin-key header. *)
Definition admin_requests_route (ADMIN_KEY header : option string)
  : handler Empty_set :=
  requireAdminKey (or_empty ADMIN_KEY) (or_empty header) get_api_admin_requests.

(** [app.patch("/api/admin/requests/:id", requireAdminKey, ...)] *)
Definition admin_patch_route (ADMIN_KEY header : option string) (id' : string)
    (status : value) : handler Empty_set :=
  requireAdminKey (or_empty ADMIN_KEY) (or_empty header)
                  (patch_api_admin_requests_id id' status).

(** ** Vocabulary of the further properties *)

(** /^\d{4}-\d{2}-\d{2} \d{2}:\d{2}$/, the shape of a slot key. *)
Definition slot_re : list atom := date_re ++ Lit " " :: time_re.

(** The dateTime of a record is the key of its date and time, and both
    pass their format check. *)
Definition slot_ok (r : request) : bool :=
  match makeDateTimeKey (date r) (time r),
        isValidDateYYYYMMDD (date r), isValidTimeHHMM (time r) with
  | Some key, Some true, Some true => String.eqb key (dateTime r)
  | _, _, _ => false
  end.

(** The status of a record is one of the four of the admin transition. *)
Definition status_ok (r : request) : bool := existsb (String.eqb (status r)) allowed.

(** No slot is held by two records at once. *)
Definition single_booked (rows : list request) : Prop :=
  forall key, (List.length (filter (occupies key) rows) <= 1)%nat.

(** A call that cannot bring a cancelled record back: anything but a
    transition to pending, confirmed or completed. *)
Definition quiet (c : call) : bool :=
  match c with
  | CallPatch _ st =>
      match allowed_has st with
      | Some s => String.eqb s "cancelled"
      | None => true
      end
  | _ => true
  end.

(** The creations among the calls. *)
Fixpoint creations (calls : list call) : nat :=
  match calls with
  | [] => O
  | CallCreate _ _ :: rest => S (creations rest)
  | _ :: rest => creations rest
  end.

(** [new] is [old] with at most [n] records put in front and statuses
    changed. *)
Definition grown (n : nat) (old new : list request) : Prop :=
  exists fresh old',
    new = fresh ++ old' /\ Forall2 same_but_status old old' /\
    (List.length fresh <= n)%nat.

(** The price of a creation in whole dollars, for whole room counts. *)
Definition whole_estimate (serviceType propertyType : value) (beds baths : Z) : Z :=
  (if strict_eq_string serviceType "deep" then 180 else 120) + beds * 20 + baths * 15
  + (if strict_eq_string propertyType "commercial" then 60 else 0).

(** The whole room counts from -20 to 20, and the totals they reach. *)
Definition whole_counts : list Z :=
  map (fun i => Z.of_nat i - 20) (seq 0 (Z.to_nat 41)).

Definition whole_totals : list Z :=
  map (fun i => Z.of_nat i - 580) (seq 0 (Z.to_nat 1521)).

Definition is_whole (j : json) (z : Z) : bool :=
  match j with
  | JNum d => (mant d =? z) && (expo d =? 0)
  | _ => false
  end.

(** The sum of the estimate on doubles is the integer sum; an integer is
    written with its own digits; a count that is not zero is truthy. *)
Definition sum_ok (base extra beds baths : Z) : bool :=
  number_eqb
    (nadd (nadd (nadd (Fin (int base)) (nmul (Fin (int beds)) (Fin (int 20))))
                (nmul (Fin (int baths)) (Fin (int 15))))
          (Fin (int extra)))
    (Fin (int (base + beds * 20 + baths * 15 + extra))).

Definition total_ok (z : Z) : bool := is_whole (stringify_number (Fin (int z))) z.

Definition count_ok (z : Z) : bool := (z =? 0) || negb (is_zero (Fin (int z))).

(** ** More sample inputs *)

(** A body whose date comes as a one-element array, as a repeated or
    bracketed query or form field is parsed. *)
Definition array_date_body : body :=
  with_slot (Some (JArr [JStr "2025-06-01"])) (str "10:00") sample_body.

(** Bodies whose bedrooms input is 0.273, 1e308 and the text "-1e400". *)
Definition fraction_rooms_body : body :=
  with_rooms (Some (JNum {| mant := 273; expo := -3 |})) undefined sample_body.

Definition huge_rooms_body : body :=
  with_rooms (Some (JNum {| mant := 1; expo := 308 |})) undefined sample_body.

Definition overflow_rooms_body : body :=
  with_rooms (str "-1e400") undefined sample_body.





(** Two records with the same id, the later one in front. *)
Definition twin_disk : disk :=
  {| REQUESTS_FILE :=
       Rows [created (with_slot (str "2025-06-02") (str "14:30") sample_body)
                     sample_clock "2025-06-02 14:30" (Fin (int 3)) (Fin (int 2));
             created sample_body sample_clock "2025-06-01 10:00"
                     (Fin (int 3)) (Fin (int 2))];
     saved := [] |}.

(** ** Tactics *)

(** Splits on every test and coercion the equation in [H] still branches
    on. *)
Ltac split_cases H :=
  repeat match type of H with
         | (if ?c then _ else _) = _ => destruct c eqn:?
         | match ?o with _ => _ end = _ => destruct o eqn:?
         end.

(** * Properties *)

(** ** The coercions on examples *)

Example NumberToString_ex :
  map NumberToString
      [int 210; int (-3); {| mant := 25; expo := -1 |}; {| mant := 1; expo := 21 |};
       {| mant := 1; expo := -7 |}; {| mant := 12300; expo := -8 |};
       {| mant := 123456; expo := 20 |}; {| mant := 5; expo := 3 |}]
  = ["210"; "-3"; "2.5"; "1e+21"; "1e-7"; "0.000123"; "1.23456e+25"; "5000"].
Proof. vm_compute. reflexivity. Qed.

Example StringToNumber_ex :
  map StringToNumber
      ["3"; " 2.5 "; "-3"; "abc"; EmptyString; "0x1F"; "1e3"; ".5"; "5."; "."; "-Infinity";
       "+0x10"; "1e"; "12px"]
  = [Fin (int 3); Fin {| mant := 25; expo := -1 |}; Fin (int (-3)); NaN; Fin (int 0);
     Fin (int 31); Fin {| mant := 1; expo := 3 |}; Fin {| mant := 5; expo := -1 |};
     Fin (int 5); NaN; Inf true; NaN; NaN; NaN].
Proof. vm_compute. reflexivity. Qed.

(** Numbers are doubles: a literal beyond the range is an infinity or a
    zero, one between two doubles is the nearer of them, and sums and
    products are rounded. *)
Example double_ex :
  map StringToNumber ["1e400"; "-1e400"; "1e-400"; "9007199254740993"]
  = [Inf false; Inf true; Fin (int 0); Fin (int 9007199254740992)] /\
  map number_to_string
      [nadd (Fin {| mant := 1; expo := -1 |}) (Fin {| mant := 2; expo := -1 |});
       nmul (Fin {| mant := 273; expo := -3 |}) (Fin (int 20));
       Fin (int (2 ^ 53 + 1)); Fin {| mant := 123456789012345678901; expo := 0 |};
       nmul (Fin {| mant := 1; expo := 308 |}) (Fin (int 20)); NaN]
  = ["0.30000000000000004"; "5.460000000000001"; "9007199254740992";
     "123456789012345680000"; "Infinity"; "NaN"].
Proof. split; vm_compute; reflexivity. Qed.

Example json_to_string_ex :
  map json_to_string
      [JArr [JStr "2025-06-01"]; JArr [JNum (int 1); JNull; JArr [JBool true; JStr "x"]];
       JObj [("a", JNull)]; JObj [("toString", JNum (int 1))]; JArr []]
  = [Some "2025-06-01"; Some "1,,true,x"; Some "[object Object]"; None; Some EmptyString].
Proof. vm_compute. reflexivity. Qed.

Example isValidDate_ex :
  map isValidDateYYYYMMDD
      [str "2025-06-01"; str "2024-13-99"; str "2025-6-1"; str "2025-06-01 ";
       Some (JArr [JStr "2025-06-01"]); num 20250601; Some (JObj [("toString", JNull)])]
  = [Some true; Some true; Some false; Some false; Some true; Some false; None].
Proof. vm_compute. reflexivity. Qed.

Example post_sample :
  post_api_requests sample_body sample_clock no_disk
  = (Reply 201 (RequestJson (created sample_body sample_clock "2025-06-01 10:00"
                                     (Fin (int 3)) (Fin (int 2)))),
     {| REQUESTS_FILE :=
          Rows [created sample_body sample_clock "2025-06-01 10:00"
                        (Fin (int 3)) (Fin (int 2))];
        saved := [[created sample_body sample_clock "2025-06-01 10:00"
                           (Fin (int 3)) (Fin (int 2))]] |}).
Proof. vm_compute. reflexivity. Qed.

(** ** The file *)

Lemma stored_repaired d : stored (repaired d) = stored d.
Proof. destruct d as [[] sv]; reflexivity. Qed.

Lemma saved_repaired d : saved (repaired d) = saved d.
Proof. destruct d as [[] sv]; reflexivity. Qed.

Lemma repaired_idem d : repaired (repaired d) = repaired d.
Proof. destruct d as [[] sv]; reflexivity. Qed.

Lemma repaired_rows d rows : REQUESTS_FILE d = Rows rows -> repaired d = d.
Proof. destruct d as [[] sv]; simpl; intros H; try discriminate; reflexivity. Qed.

Lemma readRequestsSafe_spec d : readRequestsSafe d = (Next (stored d), repaired d).
Proof. destruct d as [[] sv]; reflexivity. Qed.

Lemma writeRequests_spec rows d :
  writeRequests rows d
  = (Next tt, {| REQUESTS_FILE := Rows rows; saved := rows :: saved d |}).
Proof. destruct d as [[] sv]; reflexivity. Qed.

Lemma bind_read {B} (k : list request -> handler B) d :
  bind readRequestsSafe k d = k (stored d) (repaired d).
Proof. unfold bind. rewrite readRequestsSafe_spec. reflexivity. Qed.

Lemma bind_write {B} rows (k : unit -> handler B) d :
  bind (writeRequests rows) k d
  = k tt {| REQUESTS_FILE := Rows rows; saved := rows :: saved d |}.
Proof. unfold bind. rewrite writeRequests_spec. reflexivity. Qed.

Lemma bind_js {A B} (o : option A) (k : A -> handler B) d :
  bind (js o) k d = match o with Some a => k a d | None => (Throw, d) end.
Proof. destruct o; reflexivity. Qed.

Lemma bind_ret {A B} (a : A) (k : A -> handler B) d : bind (ret a) k d = k a d.
Proof. reflexivity. Qed.

(** ** The handlers as case analyses *)

Lemma requireAdminKey_eq expected got next d :
  requireAdminKey expected got next d =
  if String.eqb expected EmptyString then (Reply 500 (ErrorJson "ADMIN_KEY not set."), d)
  else if String.eqb got expected then next d
  else (Reply 401 (ErrorJson "Unauthorized."), d).
Proof.
  unfold requireAdminKey.
  destruct (String.eqb expected EmptyString); [reflexivity|].
  destruct (String.eqb got expected); reflexivity.
Qed.

Lemma post_api_requests_eq b c d :
  post_api_requests b c d =
  if negb (filled b) then (Reply 400 (ErrorJson "Missing required fields."), d) else
  match isValidDateYYYYMMDD (body_date b) with
  | None => (Throw, d)
  | Some false => (Reply 400 (ErrorJson "Date must be YYYY-MM-DD."), d)
  | Some true =>
    match isValidTimeHHMM (body_time b) with
    | None => (Throw, d)
    | Some false => (Reply 400 (ErrorJson "Time must be HH:MM (24-hour)."), d)
    | Some true =>
      match makeDateTimeKey (body_date b) (body_time b) with
      | None => (Throw, repaired d)
      | Some key =>
        if some (occupies key) (stored d) then
          (Reply 409 (ErrorJson "That date/time is already booked."), repaired d)
        else
          match Number (or_else (body_bedrooms b) zero),
                Number (or_else (body_bathrooms b) zero) with
          | Some beds, Some baths =>
              let r := created b c key beds baths in
              (Reply 201 (RequestJson r),
               {| REQUESTS_FILE := Rows (r :: stored d);
                  saved := (r :: stored d) :: saved d |})
          | _, _ => (Throw, repaired d)
          end
      end
    end
  end.
Proof.
  destruct b as [fullName email phone serviceType propertyType address
                 bedrooms bathrooms frequency date time notes].
  unfold post_api_requests, filled, required. cbn [forallb body_fullName body_email
    body_phone body_serviceType body_propertyType body_address body_bedrooms
    body_bathrooms body_frequency body_date body_time body_notes].
  destruct (ToBoolean fullName), (ToBoolean email), (ToBoolean phone),
    (ToBoolean serviceType), (ToBoolean propertyType), (ToBoolean address),
    (ToBoolean date), (ToBoolean time); cbn [negb orb andb]; try reflexivity.
  rewrite bind_js. destruct (isValidDateYYYYMMDD date) as [[|]|]; cbn [negb]; try reflexivity.
  rewrite bind_js. destruct (isValidTimeHHMM time) as [[|]|]; cbn [negb]; try reflexivity.
  rewrite bind_read, bind_js.
  destruct (makeDateTimeKey date time) as [key|]; try reflexivity.
  destruct (some (occupies key) (stored d)); try reflexivity.
  rewrite bind_js.
  destruct (Number (or_else bedrooms zero)) as [beds|] eqn:Hbeds; try reflexivity.
  rewrite bind_js.
  destruct (Number (or_else bathrooms zero)) as [baths|] eqn:Hbaths; try reflexivity.
  unfold created, estimate, base_of, commercial_of, or_else in *.
  cbn [body_fullName body_email body_phone body_serviceType body_propertyType
       body_address body_bedrooms body_bathrooms body_frequency body_date
       body_time body_notes].
  destruct (ToBoolean bedrooms), (ToBoolean bathrooms);
    rewrite ?Hbeds, ?Hbaths; cbn [option_map];
    repeat (rewrite bind_js || rewrite bind_ret);
    rewrite bind_write; unfold reply; rewrite saved_repaired; reflexivity.
Qed.

Lemma test_defined re v ok : test re v = Some ok -> exists s, ToString v = Some s.
Proof.
  unfold test. destruct (ToString v) as [s|]; [eauto | discriminate].
Qed.

Lemma makeDateTimeKey_defined date time okDate okTime :
  isValidDateYYYYMMDD date = Some okDate ->
  isValidTimeHHMM time = Some okTime ->
  exists key, makeDateTimeKey date time = Some key.
Proof.
  intros Hd Ht. apply test_defined in Hd as [ds Hd]. apply test_defined in Ht as [ts Ht].
  unfold makeDateTimeKey. rewrite Hd, Ht. eauto.
Qed.

Lemma get_api_check_eq date time d :
  get_api_check date time d =
  if negb (ToBoolean date) || negb (ToBoolean time) then
    (Reply 400 (ErrorJson "Missing date or time."), d)
  else
  match isValidDateYYYYMMDD date with
  | None => (Throw, d)
  | Some false => (Reply 400 (ErrorJson "Date must be YYYY-MM-DD."), d)
  | Some true =>
    match isValidTimeHHMM time with
    | None => (Throw, d)
    | Some false => (Reply 400 (ErrorJson "Time must be HH:MM (24-hour)."), d)
    | Some true =>
      match makeDateTimeKey date time with
      | None => (Throw, repaired d)
      | Some key =>
          (Reply 200 (CheckJson (negb (some (occupies key) (stored d))) key), repaired d)
      end
    end
  end.
Proof.
  unfold get_api_check.
  destruct (negb (ToBoolean date) || negb (ToBoolean time)); [reflexivity|].
  rewrite bind_js. destruct (isValidDateYYYYMMDD date) as [[|]|]; try reflexivity.
  cbn [negb]. rewrite bind_js.
  destruct (isValidTimeHHMM time) as [[|]|]; try reflexivity.
  cbn [negb]. rewrite bind_read, bind_js.
  destruct (makeDateTimeKey date time); reflexivity.
Qed.

Lemma get_api_admin_requests_eq d :
  get_api_admin_requests d = (Reply 200 (RequestsJson (stored d)), repaired d).
Proof. unfold get_api_admin_requests. rewrite bind_read. reflexivity. Qed.

Lemma patch_api_admin_requests_id_eq id' status d :
  patch_api_admin_requests_id id' status d =
  match allowed_has status with
  | None => (Reply 400 (ErrorJson "Invalid status."), d)
  | Some s =>
      let idx := findIndex (fun r => String.eqb (id r) id') (stored d) in
      if idx =? -1 then (Reply 404 (ErrorJson "Not found."), repaired d) else
      match assign_status (stored d) idx s with
      | None => (Throw, repaired d)
      | Some rows =>
          let d' := {| REQUESTS_FILE := Rows rows; saved := rows :: saved d |} in
          match item rows idx with
          | None => (Throw, d')
          | Some updated => (Reply 200 (RequestJson updated), d')
          end
      end
  end.
Proof.
  unfold patch_api_admin_requests_id.
  destruct (allowed_has status) as [s|]; [|reflexivity].
  rewrite bind_read. cbv zeta.
  destruct (findIndex _ (stored d) =? -1); [reflexivity|].
  rewrite bind_js. destruct (assign_status _ _ s) as [rows|]; [|reflexivity].
  rewrite bind_write, bind_js, saved_repaired.
  destruct (item rows _); reflexivity.
Qed.

(** ** Lists as the handlers use them *)

Section Arrays.

Context {A : Type} (f : A -> bool).

Lemma findIndex_from_spec l i :
  0 <= i ->
  (findIndex_from f l i = -1 /\ forall x, In x l -> f x = false) \/
  (exists pre x post,
      l = pre ++ x :: post /\ (forall y, In y pre -> f y = false) /\ f x = true /\
      findIndex_from f l i = i + Z.of_nat (List.length pre)).
Proof.
  revert i. induction l as [|a l IH]; intros i Hi; simpl.
  - left. split; [reflexivity | intros x []].
  - destruct (f a) eqn:Hfa.
    + right. exists [], a, l. simpl. split; [reflexivity|].
      split; [intros y []|]. split; [assumption | lia].
    + destruct (IH (i + 1)) as [[Hn Hall] | (pre & x & post & -> & Hpre & Hx & Hidx)]; [lia| |].
      * left. split; [exact Hn|]. intros x [<-|Hin]; auto.
      * right. exists (a :: pre), x, post. simpl. split; [reflexivity|].
        split; [intros y [<-|Hin]; auto|]. split; [assumption|].
        rewrite Hidx. lia.
Qed.

Lemma findIndex_spec l :
  (findIndex f l = -1 /\ forall x, In x l -> f x = false) \/
  (exists pre x post,
      l = pre ++ x :: post /\ (forall y, In y pre -> f y = false) /\ f x = true /\
      findIndex f l = Z.of_nat (List.length pre)).
Proof.
  unfold findIndex. destruct (findIndex_from_spec l 0) as [H|H]; [lia|auto|].
  right. destruct H as (pre & x & post & H1 & H2 & H3 & H4). exists pre, x, post. auto.
Qed.

Lemma update_middle (g : A -> A) (pre : list A) x post :
  update (List.length pre) g (pre ++ x :: post) = pre ++ g x :: post.
Proof. induction pre as [|a pre IH]; simpl; [reflexivity | now rewrite IH]. Qed.

Lemma item_middle (pre : list A) x post :
  item (pre ++ x :: post) (Z.of_nat (List.length pre)) = Some x.
Proof.
  unfold item. destruct (Z.ltb_spec (Z.of_nat (List.length pre)) 0); [lia|].
  rewrite Nat2Z.id, nth_error_app2, Nat.sub_diag; [reflexivity | lia].
Qed.

Lemma some_false_iff l :
  some f l = false <-> forall x, In x l -> f x = false.
Proof.
  unfold some. induction l as [|a l IH]; simpl.
  - split; [intros _ x [] | reflexivity].
  - rewrite orb_false_iff, IH. split.
    + intros [Ha Hl] x [<-|Hin]; auto.
    + intros H. split; [apply H; auto | intros x Hin; apply H; auto].
Qed.

Lemma some_true_intro l x : In x l -> f x = true -> some f l = true.
Proof. intros Hin Hx. apply existsb_exists. eauto. Qed.

End Arrays.

Lemma occupies_iff key r :
  occupies key r = true <-> dateTime r = key /\ status r <> "cancelled".
Proof.
  unfold occupies. rewrite andb_true_iff, negb_true_iff, String.eqb_eq.
  destruct (String.eqb_spec (status r) "cancelled"); intuition congruence.
Qed.

(** ** Truthiness and the validators *)



(** ** Availability *)









Lemma get_api_check_pure (date time : value) (d d' : disk)
    (out : step Empty_set) :
  get_api_check date time d = (out, d') ->
  stored d' = stored d /\
  saved d' = saved d /\
  (forall rows, REQUESTS_FILE d = Rows rows -> d' = d) /\
  get_api_check date time d' = (out, d').
Proof.
  intros H.
  assert (Hd' : d' = d \/ d' = repaired d).
  { rewrite get_api_check_eq in H.
    split_cases H; inversion H; auto. }
  assert (Hout : get_api_check date time (repaired d) = (out, repaired d)).
  { rewrite get_api_check_eq in *. rewrite stored_repaired, repaired_idem.
    split_cases H; inversion H; reflexivity. }
  destruct Hd' as [-> | ->].
  - repeat split; auto.
  - rewrite stored_repaired, saved_repaired. repeat split; auto.
    intros rows Hrows. now apply repaired_rows with rows.
Qed.

(** C8: checkAvailability has no side effects.  Whatever the query and
    the state of the file, the call saves nothing and the rows the file
    holds are the same afterwards (on a file that holds rows, the disk is
    untouched; a missing or unparsable file, already read as no rows, is
    replaced by an empty array); a second call with the same date and time
    right after the first returns the same response and changes nothing. *)
Theorem check_availability_no_side_effects (date time : value) (d d' : disk)
    (out : step Empty_set) :
  get_api_check date time d = (out, d') ->
  stored d' = stored d /\
  saved d' = saved d /\
  (forall rows, REQUESTS_FILE d = Rows rows -> d' = d) /\
  get_api_check date time d' = (out, d').
Proof. exact (get_api_check_pure date time d d' out). Qed.

Lemma check_availability_no_side_effects_witness :
  stored (snd (get_api_check (str "2025-06-01") (str "10:00") booked_disk))
  = stored booked_disk /\
  get_api_check (str "2025-06-01") (str "10:00")
                (snd (get_api_check (str "2025-06-01") (str "10:00") booked_disk))
  = get_api_check (str "2025-06-01") (str "10:00") booked_disk.
Proof.
  destruct (check_availability_no_side_effects
              (str "2025-06-01") (str "10:00") booked_disk
              (snd (get_api_check (str "2025-06-01") (str "10:00") booked_disk))
              (fst (get_api_check (str "2025-06-01") (str "10:00") booked_disk)))
    as (H1 & _ & _ & H4).
  - reflexivity.
  - split; [exact H1 | exact H4].
Defined.

(** ** The status transition on a found and on an unknown id *)

Lemma allowed_has_iff status s :
  allowed_has status = Some s <-> status = Some (JStr s) /\ In s allowed.
Proof.
  unfold allowed_has. split.
  - destruct status as [[| | |t| |]|]; try discriminate.
    destruct (existsb (String.eqb t) allowed) eqn:Hin; [|discriminate].
    intros [= <-]. split; [reflexivity|].
    apply existsb_exists in Hin as (x & Hx & Heq). apply String.eqb_eq in Heq. now subst.
  - intros [-> Hin].
    assert (H : existsb (String.eqb s) allowed = true).
    { apply existsb_exists. exists s. split; [assumption | apply String.eqb_refl]. }
    now rewrite H.
Qed.

Lemma allowed_has_None status :
  allowed_has status = None <-> forall s, In s allowed -> status <> Some (JStr s).
Proof.
  split.
  - intros Hnone s Hin ->.
    assert (H : allowed_has (Some (JStr s)) = Some s) by (apply allowed_has_iff; auto).
    congruence.
  - intros H. destruct (allowed_has status) as [s|] eqn:Hs; [|reflexivity].
    apply allowed_has_iff in Hs as [-> Hin]. exfalso. now apply (H s).
Qed.

Lemma patch_found id' status s d pre x post :
  allowed_has status = Some s ->
  stored d = pre ++ x :: post ->
  (forall y, In y pre -> id y <> id') ->
  id x = id' ->
  patch_api_admin_requests_id id' status d
  = (Reply 200 (RequestJson (with_status s x)),
     {| REQUESTS_FILE := Rows (pre ++ with_status s x :: post);
        saved := (pre ++ with_status s x :: post) :: saved d |}).
Proof.
  intros Hs Hrows Hpre Hx. rewrite patch_api_admin_requests_id_eq, Hs. cbv zeta.
  destruct (findIndex_spec (fun r => String.eqb (id r) id') (stored d))
    as [[_ Hall] | (pre' & x' & post' & Hrows' & Hpre' & Hx' & Hidx)].
  - exfalso. specialize (Hall x). rewrite Hrows in Hall.
    rewrite (proj2 (String.eqb_eq _ _) Hx) in Hall.
    discriminate Hall. apply in_or_app. right. left. reflexivity.
  - assert (Hsame : pre' = pre /\ x' = x /\ post' = post).
    { rewrite Hrows in Hrows'. clear - Hrows' Hpre Hpre' Hx Hx'.
      revert pre' Hrows' Hpre'. induction pre as [|a pre IH]; intros [|a' pre'] Heq Hpre'.
      - injection Heq as E1 E2. auto.
      - injection Heq as E1 E2. exfalso. specialize (Hpre' a' (or_introl eq_refl)).
        apply String.eqb_neq in Hpre'. congruence.
      - injection Heq as E1 E2. exfalso. apply (Hpre a); [left; reflexivity|].
        apply String.eqb_eq. congruence.
      - injection Heq as <- Heq.
        destruct (IH (fun y Hy => Hpre y (or_intror Hy)) pre' Heq
                     (fun y Hy => Hpre' y (or_intror Hy))) as (-> & -> & ->).
        auto. }
    destruct Hsame as (-> & -> & ->).
    rewrite Hidx. destruct (Z.eqb_spec (Z.of_nat (List.length pre)) (-1)); [lia|].
    unfold assign_status. rewrite Hrows, item_middle, Nat2Z.id, update_middle, item_middle.
    reflexivity.
Qed.

Lemma patch_not_found id' status s d :
  allowed_has status = Some s ->
  (forall y, In y (stored d) -> id y <> id') ->
  patch_api_admin_requests_id id' status d
  = (Reply 404 (ErrorJson "Not found."), repaired d).
Proof.
  intros Hs Hall. rewrite patch_api_admin_requests_id_eq, Hs. cbv zeta.
  destruct (findIndex_spec (fun r => String.eqb (id r) id') (stored d))
    as [[-> _] | (pre & x & post & Hrows & _ & Hx & _)]; [reflexivity|].
  exfalso. apply (Hall x); [|now apply String.eqb_eq].
  rewrite Hrows. apply in_or_app. right. left. reflexivity.
Qed.

Lemma patch_invalid id' status d :
  allowed_has status = None ->
  patch_api_admin_requests_id id' status d
  = (Reply 400 (ErrorJson "Invalid status."), d).
Proof. intros Hs. now rewrite patch_api_admin_requests_id_eq, Hs. Qed.

(** The first row with a given id, if any, and the rows around it. *)
Lemma first_with_id id' (rows : list request) :
  (forall y, In y rows -> id y <> id') \/
  (exists pre x post,
      rows = pre ++ x :: post /\ (forall y, In y pre -> id y <> id') /\ id x = id').
Proof.
  destruct (findIndex_spec (fun r => String.eqb (id r) id') rows)
    as [[_ Hall] | (pre & x & post & Hrows & Hpre & Hx & _)].
  - left. intros y Hin Heq. apply Hall in Hin.
    rewrite (proj2 (String.eqb_eq _ _) Heq) in Hin. discriminate.
  - right. exists pre, x, post. split; [assumption|]. split; [|now apply String.eqb_eq].
    intros y Hin Heq. apply Hpre in Hin.
    rewrite (proj2 (String.eqb_eq _ _) Heq) in Hin. discriminate.
Qed.

Lemma with_status_same s r : same_but_status r (with_status s r).
Proof. unfold same_but_status. simpl. repeat split. Qed.

(** C7: Frame of the admin status transition.  With a target status among
    pending, confirmed, completed and cancelled and an id that some stored
    record has, the first record with that id gets the target status, keeps
    every other field, is returned with code 200, and the stored sequence
    is otherwise the same: the records before and after it are untouched.
    A target status outside the set is answered 400 and changes nothing; an
    id no record has is answered 404 and changes no row. *)
Theorem status_transition_frame (id' : string) (st : value) (d : disk) :
  (forall s, st = Some (JStr s) -> In s allowed ->
     (exists r, In r (stored d) /\ id r = id') ->
     exists pre x post x' d',
       stored d = pre ++ x :: post /\
       (forall y, In y pre -> id y <> id') /\ id x = id' /\
       patch_api_admin_requests_id id' st d = (Reply 200 (RequestJson x'), d') /\
       status x' = s /\ same_but_status x x' /\
       stored d' = pre ++ x' :: post) /\
  ((forall s, In s allowed -> st <> Some (JStr s)) ->
     patch_api_admin_requests_id id' st d
     = (Reply 400 (ErrorJson "Invalid status."), d)) /\
  (forall s, st = Some (JStr s) -> In s allowed ->
     (forall r, In r (stored d) -> id r <> id') ->
     exists d',
       patch_api_admin_requests_id id' st d
       = (Reply 404 (ErrorJson "Not found."), d') /\
       stored d' = stored d /\ saved d' = saved d).
Proof.
  split; [|split].
  - intros s Hst Hin (r & Hr & Hid).
    assert (Hs : allowed_has st = Some s) by (apply allowed_has_iff; auto).
    destruct (first_with_id id' (stored d))
      as [Hnone | (pre & x & post & Hrows & Hpre & Hx)].
    + exfalso. exact (Hnone r Hr Hid).
    + exists pre, x, post, (with_status s x). eexists.
      split; [exact Hrows|]. split; [exact Hpre|]. split; [exact Hx|].
      split; [exact (patch_found _ _ _ _ _ _ _ Hs Hrows Hpre Hx)|].
      split; [reflexivity|]. split; [apply with_status_same | reflexivity].
  - intros Hout. apply patch_invalid. now apply allowed_has_None.
  - intros s Hst Hin Hnone.
    assert (Hs : allowed_has st = Some s) by (apply allowed_has_iff; auto).
    exists (repaired d). split; [exact (patch_not_found _ _ _ _ Hs Hnone)|].
    split; [apply stored_repaired | apply saved_repaired].
Qed.

Lemma status_transition_frame_witness :
  (exists pre x post x' d',
      stored booked_disk = pre ++ x :: post /\
      (forall y, In y pre -> id y <> "8f3a1c09d2196f0a1b2c3") /\
      id x = "8f3a1c09d2196f0a1b2c3" /\
      patch_api_admin_requests_id "8f3a1c09d2196f0a1b2c3" (str "confirmed") booked_disk
      = (Reply 200 (RequestJson x'), d') /\
      status x' = "confirmed" /\ same_but_status x x' /\
      stored d' = pre ++ x' :: post) /\
  patch_api_admin_requests_id "8f3a1c09d2196f0a1b2c3" (str "bogus") booked_disk
  = (Reply 400 (ErrorJson "Invalid status."), booked_disk) /\
  (exists d',
      patch_api_admin_requests_id "no-such-id" (str "confirmed") booked_disk
      = (Reply 404 (ErrorJson "Not found."), d') /\
      stored d' = stored booked_disk /\ saved d' = saved booked_disk).
Proof.
  split; [|split].
  - apply (status_transition_frame "8f3a1c09d2196f0a1b2c3" (str "confirmed")
                                   booked_disk) with (s := "confirmed").
    + reflexivity.
    + simpl. auto.
    + eexists. split; [left; reflexivity | reflexivity].
  - apply (status_transition_frame "8f3a1c09d2196f0a1b2c3" (str "bogus") booked_disk).
    intros s Hin. simpl in Hin.
    destruct Hin as [<- | [<- | [<- | [<- | []]]]]; discriminate.
  - apply (status_transition_frame "no-such-id" (str "confirmed") booked_disk)
      with (s := "confirmed").
    + reflexivity.
    + simpl. auto.
    + intros r [<- | []]. discriminate.
Defined.

(** ** Nothing is saved on the error paths *)

Lemma post_api_requests_unsaved b c d out d' :
  post_api_requests b c d = (out, d') ->
  succeeded out = false ->
  (d' = d \/ d' = repaired d) /\
  (out = Throw \/
   exists msg, out = Reply 400 (ErrorJson msg) \/ out = Reply 409 (ErrorJson msg)).
Proof.
  rewrite post_api_requests_eq. intros H Hfail.
  split_cases H; inversion H; subst; try discriminate Hfail; eauto 6.
Qed.

Lemma patch_api_admin_requests_id_cases id' st d :
  (allowed_has st = None /\
   patch_api_admin_requests_id id' st d
   = (Reply 400 (ErrorJson "Invalid status."), d)) \/
  (exists s, allowed_has st = Some s /\
   (forall y, In y (stored d) -> id y <> id') /\
   patch_api_admin_requests_id id' st d
   = (Reply 404 (ErrorJson "Not found."), repaired d)) \/
  (exists s pre x post, allowed_has st = Some s /\
   stored d = pre ++ x :: post /\ (forall y, In y pre -> id y <> id') /\ id x = id' /\
   patch_api_admin_requests_id id' st d
   = (Reply 200 (RequestJson (with_status s x)),
      {| REQUESTS_FILE := Rows (pre ++ with_status s x :: post);
         saved := (pre ++ with_status s x :: post) :: saved d |})).
Proof.
  destruct (allowed_has st) as [s|] eqn:Hs.
  - right. destruct (first_with_id id' (stored d))
      as [Hnone | (pre & x & post & Hrows & Hpre & Hx)].
    + left. exists s. split; [reflexivity|]. split; [assumption|].
      now apply patch_not_found with s.
    + right. exists s, pre, x, post. repeat (split; [eassumption || reflexivity|]).
      now apply patch_found.
  - left. split; [reflexivity | now apply patch_invalid].
Qed.

(** C5: Atomicity on error.  When a creation or a status transition does
    not end in its success response (it answers 400, 409 or 404, or
    throws), [writeRequests] has not been called and the file holds the
    rows it held before: a file that held rows is untouched.  When it
    succeeds, it has saved exactly once, the rows now stored. *)
Theorem atomicity_on_error :
  (forall b c d out d',
      post_api_requests b c d = (out, d') ->
      succeeded out = false ->
      saved d' = saved d /\ stored d' = stored d /\
      (forall rows, REQUESTS_FILE d = Rows rows -> d' = d) /\
      (out = Throw \/
       exists msg, out = Reply 400 (ErrorJson msg) \/ out = Reply 409 (ErrorJson msg))) /\
  (forall id' st d out d',
      patch_api_admin_requests_id id' st d = (out, d') ->
      succeeded out = false ->
      saved d' = saved d /\ stored d' = stored d /\
      (forall rows, REQUESTS_FILE d = Rows rows -> d' = d) /\
      (out = Reply 400 (ErrorJson "Invalid status.") \/
       out = Reply 404 (ErrorJson "Not found."))) /\
  (forall b c d out d',
      post_api_requests b c d = (out, d') ->
      succeeded out = true -> saved d' = stored d' :: saved d) /\
  (forall id' st d out d',
      patch_api_admin_requests_id id' st d = (out, d') ->
      succeeded out = true -> saved d' = stored d' :: saved d).
Proof.
  split; [|split; [|split]].
  - intros b c d out d' H Hfail.
    destruct (post_api_requests_unsaved _ _ _ _ _ H Hfail) as [[-> | ->] Hout].
    + repeat split; auto.
    + rewrite saved_repaired, stored_repaired. repeat split; auto.
      intros rows Hrows. now apply repaired_rows with rows.
  - intros id' st d out d' H Hfail.
    destruct (patch_api_admin_requests_id_cases id' st d)
      as [[_ E] | [(s & _ & _ & E) | (s & pre & x & post & _ & _ & _ & _ & E)]];
      rewrite E in H; inversion H; subst; try discriminate Hfail.
    + repeat split; auto.
    + rewrite saved_repaired, stored_repaired. repeat split; auto.
      intros rows Hrows. now apply repaired_rows with rows.
  - intros b c d out d'. rewrite post_api_requests_eq. intros H Hok.
    split_cases H; inversion H; subst; try discriminate Hok. reflexivity.
  - intros id' st d out d' H Hok.
    destruct (patch_api_admin_requests_id_cases id' st d)
      as [[_ E] | [(s & _ & _ & E) | (s & pre & x & post & _ & _ & _ & _ & E)]];
      rewrite E in H; inversion H; subst; try discriminate Hok. reflexivity.
Qed.

Lemma atomicity_on_error_witness :
  (snd (post_api_requests sample_body later_clock booked_disk) = booked_disk /\
   fst (post_api_requests sample_body later_clock booked_disk)
   = Reply 409 (ErrorJson "That date/time is already booked.")) /\
  (snd (patch_api_admin_requests_id "no-such-id" (str "cancelled") booked_disk)
   = booked_disk) /\
  saved (snd (post_api_requests sample_body sample_clock empty_disk))
  = [stored (snd (post_api_requests sample_body sample_clock empty_disk))].
Proof.
  destruct atomicity_on_error as (Hpost & Hpatch & Hsaved & _).
  split; [|split].
  - split; [|reflexivity].
    apply (Hpost sample_body later_clock booked_disk
                 (fst (post_api_requests sample_body later_clock booked_disk))
                 (snd (post_api_requests sample_body later_clock booked_disk))
                 eq_refl eq_refl)
      with (rows := stored booked_disk).
    reflexivity.
  - apply (Hpatch "no-such-id" (str "cancelled") booked_disk
                  (fst (patch_api_admin_requests_id "no-such-id" (str "cancelled")
                                                    booked_disk))
                  (snd (patch_api_admin_requests_id "no-such-id" (str "cancelled")
                                                    booked_disk))
                  eq_refl eq_refl)
      with (rows := stored booked_disk).
    reflexivity.
  - apply (Hsaved sample_body sample_clock empty_disk
                  (fst (post_api_requests sample_body sample_clock empty_disk))
                  (snd (post_api_requests sample_body sample_clock empty_disk))
                  eq_refl eq_refl).
Defined.

(** ** Validation of a creation *)







(** ** Whole numbers as doubles *)

Lemma number_eqb_eq x y : number_eqb x y = true -> x = y.
Proof.
  destruct x as [s | s | | s m e], y as [t | t | | t n f]; simpl; try discriminate;
    try reflexivity.
  - intros H. apply Bool.eqb_prop in H. now subst.
  - intros H. apply Bool.eqb_prop in H. now subst.
  - intros H. apply andb_true_iff in H as [H He]. apply andb_true_iff in H as [Hs Hm].
    apply Bool.eqb_prop in Hs. apply Pos.eqb_eq in Hm. apply Z.eqb_eq in He.
    now subst.
Qed.

Lemma is_whole_eq j z : is_whole j z = true -> j = JNum (int z).
Proof.
  destruct j as [| | [m e] | | |]; simpl; try discriminate.
  intros H. apply andb_true_iff in H as [Hm He].
  apply Z.eqb_eq in Hm. apply Z.eqb_eq in He. now subst.
Qed.

Lemma whole_counts_spec z : -20 <= z <= 20 -> In z whole_counts.
Proof.
  intros Hz. unfold whole_counts. apply in_map_iff.
  exists (Z.to_nat (z + 20)). split; [lia|]. apply in_seq. lia.
Qed.

Lemma whole_totals_spec z : -580 <= z <= 940 -> In z whole_totals.
Proof.
  intros Hz. unfold whole_totals. apply in_map_iff.
  exists (Z.to_nat (z + 580)). split; [lia|]. apply in_seq. lia.
Qed.

Lemma forallb_In {A : Type} (f : A -> bool) (l : list A) (x : A) :
  forallb f l = true -> In x l -> f x = true.
Proof. intros H. now apply forallb_forall. Qed.

Lemma sums_checked :
  forallb (fun base =>
    forallb (fun extra =>
      forallb (fun beds => forallb (sum_ok base extra beds) whole_counts) whole_counts)
      [0; 60])
    [120; 180] = true.
Proof. vm_compute. reflexivity. Qed.

Lemma totals_checked : forallb total_ok whole_totals = true.
Proof. vm_compute. reflexivity. Qed.

Lemma counts_checked : forallb count_ok whole_counts = true.
Proof. vm_compute. reflexivity. Qed.

Lemma Number_num z :
  -20 <= z <= 20 -> Number (or_else (num z) zero) = Some (Fin (int z)).
Proof.
  intros Hz. unfold or_else, num, zero.
  destruct (Z.eq_dec z 0) as [-> | Hnz]; [reflexivity|].
  pose proof (forallb_In _ _ z counts_checked (whole_counts_spec z Hz)) as H.
  apply orb_true_iff in H as [H | H]; [apply Z.eqb_eq in H; contradiction|].
  cbn [ToBoolean]. rewrite H. reflexivity.
Qed.

Lemma stringify_whole z :
  -580 <= z <= 940 -> stringify_number (Fin (int z)) = JNum (int z).
Proof.
  intros Hz. apply is_whole_eq, (forallb_In _ _ _ totals_checked), whole_totals_spec, Hz.
Qed.

Lemma truthy_count z : -20 <= z <= 20 -> z <> 0 -> ToBoolean (num z) = true.
Proof.
  intros Hz Hnz.
  pose proof (forallb_In _ _ z counts_checked (whole_counts_spec z Hz)) as H.
  apply orb_true_iff in H as [H | H]; [apply Z.eqb_eq in H; contradiction|].
  exact H.
Qed.

(** ** The estimate and the stored room counts *)

Lemma post_api_requests_created b c d key beds baths :
  filled b = true ->
  isValidDateYYYYMMDD (body_date b) = Some true ->
  isValidTimeHHMM (body_time b) = Some true ->
  makeDateTimeKey (body_date b) (body_time b) = Some key ->
  some (occupies key) (stored d) = false ->
  Number (or_else (body_bedrooms b) zero) = Some beds ->
  Number (or_else (body_bathrooms b) zero) = Some baths ->
  post_api_requests b c d
  = (Reply 201 (RequestJson (created b c key beds baths)),
     {| REQUESTS_FILE := Rows (created b c key beds baths :: stored d);
        saved := (created b c key beds baths :: stored d) :: saved d |}).
Proof.
  intros Hb Hdate Htime Hkey Hfree Hbeds Hbaths.
  rewrite post_api_requests_eq, Hb, Hdate, Htime, Hkey, Hfree, Hbeds, Hbaths.
  reflexivity.
Qed.

(** What an accepted creation went through. *)
Lemma post_api_requests_201 b c d r d' :
  post_api_requests b c d = (Reply 201 (RequestJson r), d') ->
  exists key beds baths,
    filled b = true /\
    isValidDateYYYYMMDD (body_date b) = Some true /\
    isValidTimeHHMM (body_time b) = Some true /\
    makeDateTimeKey (body_date b) (body_time b) = Some key /\
    some (occupies key) (stored d) = false /\
    Number (or_else (body_bedrooms b) zero) = Some beds /\
    Number (or_else (body_bathrooms b) zero) = Some baths /\
    r = created b c key beds baths /\
    d' = {| REQUESTS_FILE := Rows (r :: stored d); saved := (r :: stored d) :: saved d |}.
Proof.
  rewrite post_api_requests_eq. intros H.
  split_cases H; try discriminate H. injection H as <- <-.
  match goal with H : negb (filled b) = false |- _ => apply negb_false_iff in H end.
  eexists _, _, _. repeat (split; [eassumption || reflexivity|]). reflexivity.
Qed.

Lemma Number_falsy v : ToBoolean v = false -> Number (or_else v zero) = Some (Fin (int 0)).
Proof. unfold or_else. intros ->. reflexivity. Qed.

Lemma Number_truthy v : ToBoolean v = true -> Number (or_else v zero) = Number v.
Proof. unfold or_else. intros ->. reflexivity. Qed.

Lemma Number_primitive v : primitive v = true -> Number v <> None.
Proof. destruct v as [[]|]; simpl; intros H; discriminate. Qed.

Lemma Number_or_zero_primitive v :
  primitive v = true -> Number (or_else v zero) <> None.
Proof.
  intros H. unfold or_else. destruct (ToBoolean v); [now apply Number_primitive|].
  discriminate.
Qed.

Lemma falsy_not_negative v x :
  ToBoolean v = false -> Number v = Some x -> negative x = false.
Proof.
  destruct v as [[| [|] | n | s | |]|]; simpl; try discriminate;
    intros Hv [= <-]; try reflexivity.
  - apply negb_false_iff in Hv. destruct (Fin n); try discriminate Hv. reflexivity.
  - apply negb_false_iff in Hv. apply String.eqb_eq in Hv. subst. reflexivity.
Qed.

Lemma nmul_comm x y : nmul x y = nmul y x.
Proof.
  unfold nmul, SFmul.
  destruct x as [sx | sx | | sx mx ex], y as [sy | sy | | sy my ey];
    rewrite ?(xorb_comm sx sy); try reflexivity.
  now rewrite (Pos.mul_comm mx my), (Z.add_comm ex ey).
Qed.

Lemma spec_rooms_kept v x :
  Number (or_else v zero) = Some x ->
  is_nan x = false -> SFltb x (S754_zero false) = false -> spec_rooms v = x.
Proof. intros H Hnan Hneg. unfold spec_rooms. now rewrite H, Hnan, Hneg. Qed.

Lemma base_of_plus_zero v :
  nadd (base_of v) (nmul (Fin (int 0)) (Fin (int 20))) = base_of v.
Proof. unfold base_of. destruct (strict_eq_string v "deep"); vm_compute; reflexivity. Qed.

(** The arithmetic is that of doubles: 0.273 bedrooms give
    125.46000000000001, 1e308 bedrooms overflow to Infinity, written null,
    and 2^53 bedrooms with 2 bathrooms give 180143985094820000. *)
Example estimate_ex :
  map (fun b => estimateUSD (created b sample_clock "2025-06-01 10:00"
                                     (Fin (match body_bedrooms b with
                                           | Some (JNum n) => n
                                           | _ => int 0
                                           end))
                                     (Fin (match body_bathrooms b with
                                           | Some (JNum n) => n
                                           | _ => int 0
                                           end))))
      [sample_body; fraction_rooms_body; huge_rooms_body;
       with_rooms (num (2 ^ 53)) (num 2) sample_body]
  = [num 210; Some (JNum {| mant := 12546000000000001; expo := -14 |}); Some JNull;
     num 180143985094820000].
Proof. vm_compute. reflexivity. Qed.

(** C2 (as the code has it): The estimate of an accepted creation.  For
    an input that passes validation and the conflict check, and whose
    bedrooms and bathrooms [Number] converts to [beds] and [baths], the
    creation is answered 201 and the record's estimateUSD is
    (180 if serviceType is "deep", else 120) + beds * 20 + baths * 15
    + (60 if propertyType is "commercial", else 0), computed on doubles in
    that order and serialised.  An absent or otherwise falsy input counts
    for 0 and leaves the base price as it is; a number that is not zero
    counts for its value, also when it is negative; no input that is not an
    array or an object makes the conversion throw.  When neither count is
    NaN or below zero the estimate is the specification's formula, and
    standard, 3 bedrooms, 2 bathrooms, residential gives 210. *)
Theorem estimate_of_creation (b : body) (c : clock) (d : disk) (key : string) :
  filled b = true ->
  isValidDateYYYYMMDD (body_date b) = Some true ->
  isValidTimeHHMM (body_time b) = Some true ->
  makeDateTimeKey (body_date b) (body_time b) = Some key ->
  some (occupies key) (stored d) = false ->
  (forall beds baths,
      Number (or_else (body_bedrooms b) zero) = Some beds ->
      Number (or_else (body_bathrooms b) zero) = Some baths ->
      exists r d',
        post_api_requests b c d = (Reply 201 (RequestJson r), d') /\
        estimateUSD r
        = Some (stringify_number
                  (nadd (nadd (nadd (base_of (body_serviceType b))
                                    (nmul beds (Fin (int 20))))
                              (nmul baths (Fin (int 15))))
                        (commercial_of (body_propertyType b))))) /\
  (forall v, ToBoolean v = false -> Number (or_else v zero) = Some (Fin (int 0))) /\
  (forall v, nadd (base_of v) (nmul (Fin (int 0)) (Fin (int 20))) = base_of v) /\
  (forall n, ToBoolean (Some (JNum n)) = true ->
     Number (or_else (Some (JNum n)) zero) = Some (Fin n)) /\
  (forall v, primitive v = true -> Number (or_else v zero) <> None) /\
  (forall beds baths,
      Number (or_else (body_bedrooms b) zero) = Some beds ->
      Number (or_else (body_bathrooms b) zero) = Some baths ->
      is_nan beds = false -> SFltb beds (S754_zero false) = false ->
      is_nan baths = false -> SFltb baths (S754_zero false) = false ->
      exists r d',
        post_api_requests b c d = (Reply 201 (RequestJson r), d') /\
        estimateUSD r = Some (stringify_number (spec_estimateUSD b))) /\
  (body_serviceType b = str "standard" -> body_bedrooms b = num 3 ->
   body_bathrooms b = num 2 -> body_propertyType b = str "residential" ->
   exists r d',
     post_api_requests b c d = (Reply 201 (RequestJson r), d') /\
     estimateUSD r = num 210).
Proof.
  intros Hb Hdate Htime Hkey Hfree.
  split; [|split; [|split; [|split; [|split; [|split]]]]].
  - intros beds baths Hbeds Hbaths.
    rewrite (post_api_requests_created b c d key beds baths) by assumption.
    eexists. eexists. split; reflexivity.
  - exact Number_falsy.
  - exact base_of_plus_zero.
  - intros n Hn. now rewrite Number_truthy.
  - exact Number_or_zero_primitive.
  - intros beds baths Hbeds Hbaths Hn1 Hl1 Hn2 Hl2.
    rewrite (post_api_requests_created b c d key beds baths) by assumption.
    eexists. eexists. split; [reflexivity|].
    unfold spec_estimateUSD.
    rewrite (spec_rooms_kept _ _ Hbeds Hn1 Hl1), (spec_rooms_kept _ _ Hbaths Hn2 Hl2).
    rewrite (nmul_comm (Fin (int 20))), (nmul_comm (Fin (int 15))). reflexivity.
  - intros Hservice Hbedrooms Hbathrooms Hproperty.
    rewrite (post_api_requests_created b c d key (Fin (int 3)) (Fin (int 2)));
      try assumption; try (rewrite ?Hbedrooms, ?Hbathrooms; reflexivity).
    eexists. eexists. split; [reflexivity|].
    cbn [created estimateUSD]. unfold estimate. rewrite Hservice, Hproperty.
    vm_compute. reflexivity.
Qed.

Lemma estimate_of_creation_witness :
  (exists r d',
      post_api_requests negative_rooms_body sample_clock empty_disk
      = (Reply 201 (RequestJson r), d') /\
      estimateUSD r
      = Some (stringify_number
                (nadd (nadd (nadd (base_of (str "standard"))
                                  (nmul (Fin (int (-3))) (Fin (int 20))))
                            (nmul (Fin (int 0)) (Fin (int 15))))
                      (commercial_of (str "residential"))))) /\
  (exists r d',
      post_api_requests sample_body sample_clock empty_disk
      = (Reply 201 (RequestJson r), d') /\
      estimateUSD r = Some (stringify_number (spec_estimateUSD sample_body))) /\
  (exists r d',
      post_api_requests sample_body sample_clock empty_disk
      = (Reply 201 (RequestJson r), d') /\
      estimateUSD r = num 210).
Proof.
  split; [|split].
  - apply (estimate_of_creation negative_rooms_body sample_clock empty_disk
                                "2025-06-01 10:00"); reflexivity.
  - apply (estimate_of_creation sample_body sample_clock empty_disk "2025-06-01 10:00")
      with (beds := Fin (int 3)) (baths := Fin (int 2)); reflexivity.
  - apply (estimate_of_creation sample_body sample_clock empty_disk "2025-06-01 10:00");
      reflexivity.
Defined.

(** C2 as the specification words it fails on the code: bedrooms -3 lowers
    the estimate by 60 instead of counting for 0, and bedrooms "many" makes
    the estimate NaN, which the response and the file hold as null. *)
Lemma estimate_counterexample :
  (fst (post_api_requests negative_rooms_body sample_clock empty_disk)
   = Reply 201 (RequestJson (created negative_rooms_body sample_clock
                                     "2025-06-01 10:00" (Fin (int (-3)))
                                     (Fin (int 0)))) /\
   estimateUSD (created negative_rooms_body sample_clock "2025-06-01 10:00"
                        (Fin (int (-3))) (Fin (int 0))) = num 60 /\
   Some (stringify_number (spec_estimateUSD negative_rooms_body)) = num 120 /\
   estimateUSD (created negative_rooms_body sample_clock "2025-06-01 10:00"
                        (Fin (int (-3))) (Fin (int 0)))
   <> Some (stringify_number (spec_estimateUSD negative_rooms_body))) /\
  (fst (post_api_requests text_rooms_body sample_clock empty_disk)
   = Reply 201 (RequestJson (created text_rooms_body sample_clock
                                     "2025-06-01 10:00" NaN (Fin (int 0)))) /\
   estimateUSD (created text_rooms_body sample_clock "2025-06-01 10:00"
                        NaN (Fin (int 0))) = Some JNull /\
   Some (stringify_number (spec_estimateUSD text_rooms_body)) = num 120).
Proof.
  repeat split; try (vm_compute; reflexivity). vm_compute. discriminate.
Qed.

Lemma shortest_sign s m e : (0 <=? mant (shortest s m e)) = negb s.
Proof.
  unfold shortest. destruct (ratio m e) as [p q].
  destruct (first_candidate _ p q _ _) as [dd|];
    [destruct (expo dd) | destruct (expo (exact_decimal m e))];
    destruct s; reflexivity.
Qed.

Lemma stringify_number_sign x :
  null_or_nonneg (Some (stringify_number x)) = negb (negative x).
Proof.
  destruct x as [s | s | | s m e]; try reflexivity.
  simpl. rewrite shortest_sign. destruct s; reflexivity.
Qed.

Lemma stringify_number_null x :
  stringify_number x = JNull <-> is_nan x = true \/ exists s, x = Inf s.
Proof.
  destruct x as [s | s | | s m e]; simpl; split; try discriminate; auto.
  - intros [H | (t & H)]; discriminate.
  - intros _. right. now exists s.
  - intros [H | (t & H)]; discriminate.
Qed.

(** What is stored is the value of the input, not its text: the text
    "-1e400" converts to -Infinity, which is stored as null, and "2.50" is
    stored as 2.5. *)
Example rooms_ex :
  map (fun v => bedrooms (created (with_rooms v undefined sample_body) sample_clock
                                  "2025-06-01 10:00"
                                  (match Number v with Some x => x | None => NaN end)
                                  (Fin (int 0))))
      [num 3; str "2.50"; num (-3); str "-1e400"; str "many"; num 0; undefined;
       Some (JNum {| mant := 1; expo := -400 |})]
  = [num 3; Some (JNum {| mant := 25; expo := -1 |}); num (-3); Some JNull; Some JNull;
     Some JNull; Some JNull; Some JNull].
Proof. vm_compute. reflexivity. Qed.

(** C9 (as the code has it): bedrooms and bathrooms of a created record.
    Each of the two fields is null when its input is falsy; otherwise it is
    the serialisation of [Number(input)]: null when that is NaN or an
    infinity, and that number, with its sign, when it is finite.  So the
    field is null or non-negative unless [Number(input)] is a finite number
    below zero, which is stored as it is; a whole count from -20 to 20
    other than 0 is stored as that count. *)
Theorem rooms_of_created_record (b : body) (c : clock) (d d' : disk) (r : request) :
  post_api_requests b c d = (Reply 201 (RequestJson r), d') ->
  (ToBoolean (body_bedrooms b) = false -> bedrooms r = Some JNull) /\
  (ToBoolean (body_bedrooms b) = true ->
   exists x, Number (body_bedrooms b) = Some x /\
             bedrooms r = Some (stringify_number x)) /\
  (ToBoolean (body_bathrooms b) = false -> bathrooms r = Some JNull) /\
  (ToBoolean (body_bathrooms b) = true ->
   exists x, Number (body_bathrooms b) = Some x /\
             bathrooms r = Some (stringify_number x)) /\
  (forall x, stringify_number x = JNull <-> is_nan x = true \/ exists s, x = Inf s) /\
  (forall s m e,
      stringify_number (S754_finite s m e) = JNum (shortest s m e) /\
      (0 <=? mant (shortest s m e)) = negb s) /\
  (null_or_nonneg (bedrooms r) = false <->
   exists x, Number (body_bedrooms b) = Some x /\ negative x = true) /\
  (null_or_nonneg (bathrooms r) = false <->
   exists x, Number (body_bathrooms b) = Some x /\ negative x = true) /\
  (forall z, -20 <= z <= 20 -> z <> 0 ->
     (body_bedrooms b = num z -> bedrooms r = num z) /\
     (body_bathrooms b = num z -> bathrooms r = num z)).
Proof.
  intros H.
  destruct (post_api_requests_201 _ _ _ _ _ H)
    as (key & beds & baths & _ & _ & _ & _ & _ & Hbeds & Hbaths & -> & _).
  cbn [created bedrooms bathrooms].
  assert (Hfield : forall v x,
             Number (or_else v zero) = Some x ->
             let f := Some (if ToBoolean v then stringify_number x else JNull) in
             (ToBoolean v = false -> f = Some JNull) /\
             (ToBoolean v = true ->
              exists y, Number v = Some y /\ f = Some (stringify_number y)) /\
             (null_or_nonneg f = false <->
              exists y, Number v = Some y /\ negative y = true)).
  { clear. intros v x Hx f. subst f. destruct (ToBoolean v) eqn:Hv.
    - rewrite (Number_truthy v Hv) in Hx.
      split; [discriminate|]. split; [intros _; eauto|].
      rewrite stringify_number_sign, negb_false_iff. split.
      + intros Hneg. eauto.
      + intros (y & Hy & Hneg). congruence.
    - split; [reflexivity|]. split; [discriminate|]. simpl. split; [discriminate|].
      intros (y & Hy & Hneg). rewrite (falsy_not_negative v y Hv Hy) in Hneg.
      discriminate. }
  destruct (Hfield _ _ Hbeds) as (H1 & H2 & H3).
  destruct (Hfield _ _ Hbaths) as (H4 & H5 & H6).
  cbv zeta in *.
  split; [exact H1|]. split; [exact H2|]. split; [exact H4|]. split; [exact H5|].
  split; [exact stringify_number_null|].
  split; [intros s m e; split; [reflexivity | apply shortest_sign]|].
  split; [exact H3|]. split; [exact H6|].
  intros z Hz Hnz. split; intros Hin; rewrite Hin in *.
  - destruct (H2 (truthy_count z Hz Hnz)) as (x & [= <-] & ->).
    unfold num. f_equal. apply stringify_whole. lia.
  - destruct (H5 (truthy_count z Hz Hnz)) as (x & [= <-] & ->).
    unfold num. f_equal. apply stringify_whole. lia.
Qed.

Lemma rooms_of_created_record_witness :
  (exists x,
      Number (body_bedrooms negative_rooms_body) = Some x /\
      bedrooms (created negative_rooms_body sample_clock "2025-06-01 10:00"
                        (Fin (int (-3))) (Fin (int 0)))
      = Some (stringify_number x)) /\
  bathrooms (created negative_rooms_body sample_clock "2025-06-01 10:00"
                     (Fin (int (-3))) (Fin (int 0))) = Some JNull.
Proof.
  destruct (rooms_of_created_record
              negative_rooms_body sample_clock empty_disk
              (snd (post_api_requests negative_rooms_body sample_clock empty_disk))
              (created negative_rooms_body sample_clock "2025-06-01 10:00"
                       (Fin (int (-3))) (Fin (int 0))) eq_refl)
    as (_ & H2 & H3 & _).
  split; [apply H2 | apply H3]; reflexivity.
Defined.

(** C9 as the specification words it fails on the code: bedrooms -3 is
    accepted and the created record stores -3. *)
Lemma rooms_counterexample :
  fst (post_api_requests negative_rooms_body sample_clock empty_disk)
  = Reply 201 (RequestJson (created negative_rooms_body sample_clock
                                    "2025-06-01 10:00" (Fin (int (-3)))
                                    (Fin (int 0)))) /\
  bedrooms (created negative_rooms_body sample_clock "2025-06-01 10:00"
                    (Fin (int (-3))) (Fin (int 0))) = num (-3) /\
  null_or_nonneg (bedrooms (created negative_rooms_body sample_clock
                                    "2025-06-01 10:00" (Fin (int (-3)))
                                    (Fin (int 0)))) = false.
Proof. repeat split; vm_compute; reflexivity. Qed.

(** C10: Zero is stored as null.  In an accepted creation whose bedrooms
    input is the number 0, the created record holds null for bedrooms, and
    the bedrooms term of its estimate is 0 * 20 = 0; the same holds of
    bathrooms, with 0 * 15 = 0. *)
Theorem zero_rooms_stored_as_null (b : body) (c : clock) (d d' : disk) (r : request) :
  post_api_requests b c d = (Reply 201 (RequestJson r), d') ->
  (forall n, body_bedrooms b = Some (JNum n) -> mant n = 0 ->
     bedrooms r = Some JNull /\
     exists baths,
       Number (or_else (body_bathrooms b) zero) = Some baths /\
       estimateUSD r
       = Some (stringify_number
                 (nadd (nadd (nadd (base_of (body_serviceType b)) (Fin (int 0)))
                             (nmul baths (Fin (int 15))))
                       (commercial_of (body_propertyType b))))) /\
  (forall n, body_bathrooms b = Some (JNum n) -> mant n = 0 ->
     bathrooms r = Some JNull /\
     exists beds,
       Number (or_else (body_bedrooms b) zero) = Some beds /\
       estimateUSD r
       = Some (stringify_number
                 (nadd (nadd (nadd (base_of (body_serviceType b))
                                   (nmul beds (Fin (int 20))))
                             (Fin (int 0)))
                       (commercial_of (body_propertyType b))))).
Proof.
  intros H.
  destruct (post_api_requests_201 _ _ _ _ _ H)
    as (key & beds & baths & _ & _ & _ & _ & _ & Hbeds & Hbaths & -> & _).
  cbn [created bedrooms bathrooms estimateUSD]. unfold estimate.
  split; intros n Hn Hzero.
  - assert (Hfalsy : ToBoolean (body_bedrooms b) = false).
    { rewrite Hn. simpl. unfold Fin. rewrite Hzero. reflexivity. }
    rewrite (Number_falsy _ Hfalsy) in Hbeds. injection Hbeds as <-.
    rewrite Hfalsy. split; [reflexivity|]. exists baths. split; [assumption | reflexivity].
  - assert (Hfalsy : ToBoolean (body_bathrooms b) = false).
    { rewrite Hn. simpl. unfold Fin. rewrite Hzero. reflexivity. }
    rewrite (Number_falsy _ Hfalsy) in Hbaths. injection Hbaths as <-.
    rewrite Hfalsy. split; [reflexivity|]. exists beds. split; [assumption | reflexivity].
Qed.

Lemma zero_rooms_stored_as_null_witness :
  bedrooms (created zero_rooms_body sample_clock "2025-06-01 10:00"
                    (Fin (int 0)) (Fin (int 0))) = Some JNull /\
  bathrooms (created zero_rooms_body sample_clock "2025-06-01 10:00"
                     (Fin (int 0)) (Fin (int 0))) = Some JNull.
Proof.
  destruct (zero_rooms_stored_as_null
              zero_rooms_body sample_clock empty_disk
              (snd (post_api_requests zero_rooms_body sample_clock empty_disk))
              (created zero_rooms_body sample_clock "2025-06-01 10:00"
                       (Fin (int 0)) (Fin (int 0))) eq_refl)
    as (H1 & H2).
  split.
  - apply (H1 (int 0)); reflexivity.
  - apply (H2 (int 0)); reflexivity.
Defined.

(** ** Newest first *)

Lemma create_all_created inputs d d' rs :
  create_all inputs d = (map (fun r => Reply 201 (RequestJson r)) rs, d') ->
  stored d' = rev rs ++ stored d /\ (rs <> [] -> holds_rows d').
Proof.
  revert d rs. induction inputs as [|[b c] inputs IH]; intros d rs; simpl.
  - destruct rs; [|discriminate]. intros [= <-]. split; [reflexivity | congruence].
  - destruct (post_api_requests b c d) as [out d1] eqn:Hpost.
    destruct (create_all inputs d1) as [outs d2] eqn:Hrest.
    destruct rs as [|r rs]; [discriminate|]. simpl. intros [= -> -> ->].
    destruct (post_api_requests_201 _ _ _ _ _ Hpost)
      as (key & beds & baths & _ & _ & _ & _ & _ & _ & _ & _ & Hd1).
    destruct (IH _ _ Hrest) as [Hstored Hrows]. split.
    + rewrite Hstored, Hd1, <- app_assoc. reflexivity.
    + intros _. destruct rs as [|r' rs].
      * simpl in Hrest. destruct inputs as [|[b' c'] inputs]; simpl in Hrest.
        -- injection Hrest as <-. rewrite Hd1. eexists. reflexivity.
        -- destruct (post_api_requests b' c' d1), (create_all inputs d0).
           discriminate.
      * apply Hrows. discriminate.
Qed.

(** C6: Newest first.  A successful creation puts its record in front of
    the stored sequence; after creations that all succeeded, the admin
    listing returns their records from the latest to the earliest, followed
    by the rows stored before: its first element is the record created
    last. *)
Theorem newest_first :
  (forall b c d r d1,
      post_api_requests b c d = (Reply 201 (RequestJson r), d1) ->
      stored d1 = r :: stored d) /\
  (forall inputs d d' rs,
      create_all inputs d = (map (fun r => Reply 201 (RequestJson r)) rs, d') ->
      get_api_admin_requests d'
      = (Reply 200 (RequestsJson (rev rs ++ stored d)), repaired d')) /\
  (forall inputs d d' rs r,
      create_all inputs d = (map (fun r => Reply 201 (RequestJson r)) (rs ++ [r]), d') ->
      get_api_admin_requests d'
      = (Reply 200 (RequestsJson (r :: rev rs ++ stored d)), d')).
Proof.
  split; [|split].
  - intros b c d r d1 H.
    destruct (post_api_requests_201 _ _ _ _ _ H)
      as (key & beds & baths & _ & _ & _ & _ & _ & _ & _ & _ & ->).
    reflexivity.
  - intros inputs d d' rs H. rewrite get_api_admin_requests_eq.
    destruct (create_all_created _ _ _ _ H) as [-> _]. reflexivity.
  - intros inputs d d' rs r H. rewrite get_api_admin_requests_eq.
    destruct (create_all_created _ _ _ _ H) as [-> Hrows].
    destruct Hrows as [rows Hrows]; [now destruct rs|].
    rewrite (repaired_rows _ _ Hrows), rev_app_distr. reflexivity.
Qed.

Lemma newest_first_witness :
  stored (snd (post_api_requests sample_body sample_clock empty_disk))
  = created sample_body sample_clock "2025-06-01 10:00" (Fin (int 3)) (Fin (int 2))
    :: stored empty_disk /\
  get_api_admin_requests
    (snd (create_all [(sample_body, sample_clock);
                      (with_slot (str "2025-06-02") (str "14:30") sample_body,
                       later_clock)] empty_disk))
  = (Reply 200
       (RequestsJson
          (created (with_slot (str "2025-06-02") (str "14:30") sample_body)
                   later_clock "2025-06-02 14:30" (Fin (int 3)) (Fin (int 2))
           :: rev [created sample_body sample_clock "2025-06-01 10:00"
                           (Fin (int 3)) (Fin (int 2))]
              ++ stored empty_disk)),
     snd (create_all [(sample_body, sample_clock);
                      (with_slot (str "2025-06-02") (str "14:30") sample_body,
                       later_clock)] empty_disk)).
Proof.
  destruct newest_first as (H1 & _ & H3). split.
  - apply (H1 sample_body sample_clock empty_disk
              (created sample_body sample_clock "2025-06-01 10:00"
                       (Fin (int 3)) (Fin (int 2)))
              (snd (post_api_requests sample_body sample_clock empty_disk))).
    reflexivity.
  - apply (H3 [(sample_body, sample_clock);
               (with_slot (str "2025-06-02") (str "14:30") sample_body, later_clock)]
              empty_disk
              (snd (create_all [(sample_body, sample_clock);
                                (with_slot (str "2025-06-02") (str "14:30") sample_body,
                                 later_clock)] empty_disk))
              [created sample_body sample_clock "2025-06-01 10:00"
                       (Fin (int 3)) (Fin (int 2))]
              (created (with_slot (str "2025-06-02") (str "14:30") sample_body)
                       later_clock "2025-06-02 14:30" (Fin (int 3)) (Fin (int 2)))).
    reflexivity.
Defined.

(** ** Records stay in place *)

Lemma same_but_status_refl r : same_but_status r r.
Proof. unfold same_but_status. repeat split. Qed.

Lemma same_but_status_trans r1 r2 r3 :
  same_but_status r1 r2 -> same_but_status r2 r3 -> same_but_status r1 r3.
Proof.
  unfold same_but_status. intros H12 H23.
  repeat match goal with H : _ /\ _ |- _ => destruct H end.
  repeat split; congruence.
Qed.

Lemma Forall2_same_refl rows : Forall2 same_but_status rows rows.
Proof. induction rows; constructor; auto using same_but_status_refl. Qed.

Lemma Forall2_same_trans l1 l2 l3 :
  Forall2 same_but_status l1 l2 -> Forall2 same_but_status l2 l3 ->
  Forall2 same_but_status l1 l3.
Proof.
  intros H12. revert l3. induction H12; intros l3 H23; inversion H23; subst;
    constructor; eauto using same_but_status_trans.
Qed.

Lemma evolved_refl rows : evolved rows rows.
Proof. exists [], rows. split; [reflexivity | apply Forall2_same_refl]. Qed.

Lemma evolved_cons r rows : evolved rows (r :: rows).
Proof. exists [r], rows. split; [reflexivity | apply Forall2_same_refl]. Qed.

Lemma evolved_status s pre x post :
  evolved (pre ++ x :: post) (pre ++ with_status s x :: post).
Proof.
  exists [], (pre ++ with_status s x :: post). split; [reflexivity|].
  apply Forall2_app; [apply Forall2_same_refl|].
  constructor; [apply with_status_same | apply Forall2_same_refl].
Qed.

Lemma evolved_trans l1 l2 l3 : evolved l1 l2 -> evolved l2 l3 -> evolved l1 l3.
Proof.
  intros (f1 & o1 & -> & H1) (f2 & o2 & -> & H2).
  apply Forall2_app_inv_l in H2 as (f1' & o1' & _ & Ho & ->).
  exists (f2 ++ f1'), o1'. split; [now rewrite app_assoc|].
  eapply Forall2_same_trans; eassumption.
Qed.

Lemma holds_rows_repaired d : holds_rows d -> holds_rows (repaired d).
Proof. intros [rows H]. rewrite (repaired_rows d rows H). now exists rows. Qed.

Lemma holds_rows_written rows sv : holds_rows {| REQUESTS_FILE := Rows rows; saved := sv |}.
Proof. now exists rows. Qed.

Create HintDb rows.

#[local] Hint Resolve evolved_refl evolved_cons evolved_status holds_rows_repaired
  holds_rows_written : rows.

Lemma serve_evolved c d :
  evolved (stored d) (stored (snd (serve c d))) /\
  (holds_rows d -> holds_rows (snd (serve c d))).
Proof.
  destruct c as [date time | b c | | id' st]; simpl.
  - destruct (get_api_check date time d) as [out d'] eqn:H.
    destruct (get_api_check_pure _ _ _ _ _ H) as (Hs & _ & Hd & _).
    simpl. rewrite Hs. split; [auto with rows|].
    intros [rows Hrows]. rewrite (Hd rows Hrows). now exists rows.
  - destruct (post_api_requests b c d) as [out d'] eqn:H.
    rewrite post_api_requests_eq in H. simpl.
    split_cases H; injection H as <- <-; rewrite ?stored_repaired;
      cbn [stored REQUESTS_FILE]; split; auto with rows.
  - rewrite get_api_admin_requests_eq. simpl. rewrite stored_repaired.
    split; auto with rows.
  - destruct (patch_api_admin_requests_id_cases id' st d)
      as [[_ E] | [(s & _ & _ & E) | (s & pre & x & post & _ & Hrows & _ & _ & E)]];
      rewrite E; simpl.
    + split; auto with rows.
    + rewrite stored_repaired. split; auto with rows.
    + unfold stored at 2. simpl. rewrite Hrows. split; auto with rows.
Qed.

Lemma run_evolved calls d :
  evolved (stored d) (stored (run calls d)) /\
  (holds_rows d -> holds_rows (run calls d)).
Proof.
  revert d. induction calls as [|c calls IH]; intros d; simpl.
  - split; [apply evolved_refl | auto].
  - destruct (serve_evolved c d) as [H1 H2].
    destruct (IH (snd (serve c d))) as [H3 H4].
    split; [eapply evolved_trans; eassumption | auto].
Qed.

Lemma post_api_requests_conflict b c d key r :
  filled b = true ->
  isValidDateYYYYMMDD (body_date b) = Some true ->
  isValidTimeHHMM (body_time b) = Some true ->
  makeDateTimeKey (body_date b) (body_time b) = Some key ->
  In r (stored d) -> dateTime r = key -> status r <> "cancelled" ->
  post_api_requests b c d
  = (Reply 409 (ErrorJson "That date/time is already booked."), repaired d).
Proof.
  intros Hb Hdate Htime Hkey Hin Hr Hstatus.
  rewrite post_api_requests_eq, Hb, Hdate, Htime, Hkey.
  rewrite (some_true_intro (occupies key) (stored d) r Hin); [reflexivity|].
  now apply occupies_iff.
Qed.

(** C1: Conflict law for creation.  Once a creation has succeeded for a
    date and a time, its record stays in the stored sequence whatever calls
    follow (at the same distance from the end, and the same up to its
    status), and as long as its status is not "cancelled" every creation
    with that date and time (and its required fields filled in) is answered
    409 and leaves the disk as it was; so is, in particular, a creation
    that comes right after the first.  Once the status of the record has
    been set to "cancelled", a creation with that date and time succeeds. *)
Theorem conflict_law (b1 : body) (c1 : clock) (d d1 : disk) (r1 : request) :
  post_api_requests b1 c1 d = (Reply 201 (RequestJson r1), d1) ->
  (forall calls b2 c2,
      body_date b2 = body_date b1 -> body_time b2 = body_time b1 ->
      filled b2 = true ->
      exists fresh r1' older,
        stored (run calls d1) = fresh ++ r1' :: older /\
        List.length older = List.length (stored d) /\
        same_but_status r1 r1' /\
        (status r1' <> "cancelled" ->
         post_api_requests b2 c2 (run calls d1)
         = (Reply 409 (ErrorJson "That date/time is already booked."),
            run calls d1))) /\
  (forall b2 c2,
      body_date b2 = body_date b1 -> body_time b2 = body_time b1 ->
      filled b2 = true ->
      post_api_requests b2 c2 d1
      = (Reply 409 (ErrorJson "That date/time is already booked."), d1)) /\
  (exists d2,
      patch_api_admin_requests_id (id r1) (str "cancelled") d1
      = (Reply 200 (RequestJson (with_status "cancelled" r1)), d2) /\
      forall b2 c2 beds baths,
        body_date b2 = body_date b1 -> body_time b2 = body_time b1 ->
        filled b2 = true ->
        Number (or_else (body_bedrooms b2) zero) = Some beds ->
        Number (or_else (body_bathrooms b2) zero) = Some baths ->
        exists r2 d3,
          post_api_requests b2 c2 d2 = (Reply 201 (RequestJson r2), d3) /\
          dateTime r2 = dateTime r1 /\
          stored d3 = r2 :: with_status "cancelled" r1 :: stored d).
Proof.
  intros H.
  destruct (post_api_requests_201 _ _ _ _ _ H)
    as (key & beds1 & baths1 & _ & Hdate & Htime & Hkey & Hfree & _ & _ & Hr1 & Hd1).
  assert (Hkey1 : dateTime r1 = key) by (rewrite Hr1; reflexivity).
  assert (Hstatus1 : status r1 = "pending") by (rewrite Hr1; reflexivity).
  assert (Hstored1 : stored d1 = r1 :: stored d) by (rewrite Hd1; reflexivity).
  assert (Hrows1 : holds_rows d1) by (rewrite Hd1; eexists; reflexivity).
  split; [|split].
  - intros calls b2 c2 Hd2 Ht2 Hb2.
    destruct (run_evolved calls d1) as [(fresh & old' & Hrun & Hsame) Hrows].
    rewrite Hstored1 in Hsame. inversion Hsame as [|? r1' ? older Hr1' Holder]; subst old'.
    exists fresh, r1', older. split; [exact Hrun|].
    split; [symmetry; eapply Forall2_length; eassumption|]. split; [exact Hr1'|].
    intros Hstatus. destruct (Hrows Hrows1) as [rows Hfile].
    rewrite <- (repaired_rows _ _ Hfile) at 2.
    apply post_api_requests_conflict with (key := key) (r := r1');
      rewrite ?Hd2, ?Ht2; try assumption.
    + rewrite Hrun. apply in_or_app. right. left. reflexivity.
    + destruct Hr1' as (_ & _ & _ & _ & _ & _ & _ & _ & _ & _ & _ & _ & _ & Hdt & _).
      congruence.
  - intros b2 c2 Hd2 Ht2 Hb2. destruct Hrows1 as [rows Hfile].
    rewrite <- (repaired_rows _ _ Hfile) at 2.
    apply post_api_requests_conflict with (key := key) (r := r1);
      rewrite ?Hd2, ?Ht2; try assumption.
    + rewrite Hstored1. left. reflexivity.
    + rewrite Hstatus1. discriminate.
  - eexists. split.
    + apply (patch_found (id r1) (str "cancelled") "cancelled" d1 [] r1 (stored d));
        [reflexivity | exact Hstored1 | intros y [] | reflexivity].
    + intros b2 c2 beds baths Hd2 Ht2 Hb2 Hbeds Hbaths.
      rewrite (post_api_requests_created b2 c2 _ key beds baths);
        rewrite ?Hd2, ?Ht2; try assumption.
      * eexists. eexists. split; [reflexivity|]. split; [|reflexivity].
        simpl. congruence.
      * unfold stored. simpl. unfold occupies at 1. simpl.
        rewrite andb_false_r. exact Hfree.
Qed.

Lemma conflict_law_witness :
  post_api_requests sample_body later_clock
                    (run [CallPatch "8f3a1c09d2196f0a1b2c3" (str "confirmed");
                          CallCheck (str "2025-06-01") (str "10:00")] booked_disk)
  = (Reply 409 (ErrorJson "That date/time is already booked."),
     run [CallPatch "8f3a1c09d2196f0a1b2c3" (str "confirmed");
          CallCheck (str "2025-06-01") (str "10:00")] booked_disk) /\
  post_api_requests sample_body later_clock booked_disk
  = (Reply 409 (ErrorJson "That date/time is already booked."), booked_disk) /\
  exists d2,
    patch_api_admin_requests_id "8f3a1c09d2196f0a1b2c3" (str "cancelled") booked_disk
    = (Reply 200 (RequestJson
                    (with_status "cancelled"
                       (created sample_body sample_clock "2025-06-01 10:00"
                                (Fin (int 3)) (Fin (int 2))))), d2) /\
    exists r2 d3,
      post_api_requests sample_body later_clock d2 = (Reply 201 (RequestJson r2), d3) /\
      dateTime r2 = "2025-06-01 10:00".
Proof.
  destruct (conflict_law sample_body sample_clock no_disk booked_disk
                         (created sample_body sample_clock "2025-06-01 10:00"
                                  (Fin (int 3)) (Fin (int 2))) eq_refl)
    as (Hlater & Hnext & d2 & Hpatch & Hagain).
  split; [|split].
  - destruct (Hlater [CallPatch "8f3a1c09d2196f0a1b2c3" (str "confirmed");
                      CallCheck (str "2025-06-01") (str "10:00")]
                     sample_body later_clock eq_refl eq_refl eq_refl)
      as (fresh & r1' & older & Hrun & Hlen & _ & Hconflict).
    apply Hconflict.
    destruct older as [|x older]; [|discriminate Hlen].
    change (stored (run [CallPatch "8f3a1c09d2196f0a1b2c3" (str "confirmed");
                         CallCheck (str "2025-06-01") (str "10:00")] booked_disk))
      with ([] ++ [with_status "confirmed"
                     (created sample_body sample_clock "2025-06-01 10:00"
                              (Fin (int 3)) (Fin (int 2)))]) in Hrun.
    apply app_inj_tail in Hrun as [_ <-]. discriminate.
  - apply Hnext; reflexivity.
  - exists d2. split; [exact Hpatch|].
    destruct (Hagain sample_body later_clock (Fin (int 3)) (Fin (int 2))
                     eq_refl eq_refl eq_refl eq_refl eq_refl)
      as (r2 & d3 & Hpost & Hkey & _).
    exists r2, d3. split; [exact Hpost | exact Hkey].
Defined.

(** * Further properties of the server *)

(** ** The data file *)



(** ** The admin key *)

(** X2: the admin routes are closed unless the key matches.  When
    ADMIN_KEY is unset or empty every call of an admin route is answered
    500, whatever its header, the empty one included; when it is set, a
    call whose x-admin-key header is absent or different is answered 401.
    In both cases the disk is untouched and no record is returned.  A call
    whose header equals a non-empty ADMIN_KEY is served by the handler of
    the route. *)
Theorem admin_routes_need_the_key (ADMIN_KEY header : option string) (id' : string)
    (st : value) (d : disk) :
  (or_empty ADMIN_KEY = EmptyString ->
   admin_requests_route ADMIN_KEY header d
   = (Reply 500 (ErrorJson "ADMIN_KEY not set."), d) /\
   admin_patch_route ADMIN_KEY header id' st d
   = (Reply 500 (ErrorJson "ADMIN_KEY not set."), d)) /\
  (or_empty ADMIN_KEY <> EmptyString -> or_empty header <> or_empty ADMIN_KEY ->
   admin_requests_route ADMIN_KEY header d = (Reply 401 (ErrorJson "Unauthorized."), d) /\
   admin_patch_route ADMIN_KEY header id' st d
   = (Reply 401 (ErrorJson "Unauthorized."), d)) /\
  (forall key, key <> EmptyString -> ADMIN_KEY = Some key -> header = Some key ->
   admin_requests_route ADMIN_KEY header d = get_api_admin_requests d /\
   admin_patch_route ADMIN_KEY header id' st d = patch_api_admin_requests_id id' st d).
Proof.
  unfold admin_requests_route, admin_patch_route. rewrite !requireAdminKey_eq.
  split; [|split].
  - intros ->. split; reflexivity.
  - intros Hset Hdiff.
    apply String.eqb_neq in Hset. apply String.eqb_neq in Hdiff.
    rewrite Hset, Hdiff. split; reflexivity.
  - intros key Hkey -> ->. cbn [or_empty].
    apply String.eqb_neq in Hkey. rewrite Hkey, String.eqb_refl. split; reflexivity.
Qed.

Lemma admin_routes_need_the_key_witness :
  admin_patch_route None (Some EmptyString) "8f3a1c09d2196f0a1b2c3" (str "cancelled")
                    booked_disk
  = (Reply 500 (ErrorJson "ADMIN_KEY not set."), booked_disk) /\
  admin_requests_route (Some "s3cret") None booked_disk
  = (Reply 401 (ErrorJson "Unauthorized."), booked_disk) /\
  admin_requests_route (Some "s3cret") (Some "s3cret") booked_disk
  = get_api_admin_requests booked_disk.
Proof.
  split; [|split].
  - apply (admin_routes_need_the_key None (Some EmptyString) "8f3a1c09d2196f0a1b2c3"
                                     (str "cancelled") booked_disk).
    reflexivity.
  - apply (admin_routes_need_the_key (Some "s3cret") None EmptyString undefined
                                     booked_disk); discriminate.
  - apply (admin_routes_need_the_key (Some "s3cret") (Some "s3cret") EmptyString
                                     undefined booked_disk) with (key := "s3cret");
      [discriminate | reflexivity | reflexivity].
Defined.

(** ** Slot keys *)

Lemma chars_append a b : chars (a ++ b)%string = chars a ++ chars b.
Proof. induction a as [|c a IH]; simpl; [reflexivity | now rewrite IH]. Qed.

Lemma chars_inj a b : chars a = chars b -> a = b.
Proof.
  intros H. rewrite <- (string_of_list_ascii_of_string a).
  rewrite <- (string_of_list_ascii_of_string b). unfold chars in H. now rewrite H.
Qed.

Lemma matches_length re s : matches re s = true -> List.length s = List.length re.
Proof.
  revert s. induction re as [|a re IH]; intros [|c s]; simpl; try discriminate; auto.
  intros H. apply andb_true_iff in H as [_ H]. now rewrite (IH s H).
Qed.

Lemma matches_app re1 re2 s1 s2 :
  matches re1 s1 = true -> matches re2 s2 = true -> matches (re1 ++ re2) (s1 ++ s2) = true.
Proof.
  revert s1. induction re1 as [|a re1 IH]; intros [|c s1]; simpl; try discriminate; auto.
  intros H1 H2. apply andb_true_iff in H1 as [Ha H1]. rewrite Ha. simpl. auto.
Qed.

Lemma app_same_length_inj {A} (a a' b b' : list A) :
  List.length a = List.length a' -> a ++ b = a' ++ b' -> a = a' /\ b = b'.
Proof.
  revert a'. induction a as [|x a IH]; intros [|x' a']; simpl; try discriminate; auto.
  intros [= Hlen] [= -> Happ]. destruct (IH a' Hlen Happ) as [-> ->]. auto.
Qed.

Lemma test_true_inv re v :
  test re v = Some true -> exists s, ToString v = Some s /\ matches re (chars s) = true.
Proof.
  unfold test. destruct (ToString v) as [s|]; [|discriminate].
  simpl. intros [= H]. eauto.
Qed.

(** X3: a slot key names one date and one time.  When two date/time pairs
    pass the two format checks and have the same key, their dates have the
    same text and so have their times: two different valid slots never
    collide in the double-booking test. *)
Theorem slot_key_injective (date1 time1 date2 time2 : value) (key : string) :
  isValidDateYYYYMMDD date1 = Some true -> isValidTimeHHMM time1 = Some true ->
  isValidDateYYYYMMDD date2 = Some true -> isValidTimeHHMM time2 = Some true ->
  makeDateTimeKey date1 time1 = Some key ->
  makeDateTimeKey date2 time2 = Some key ->
  ToString date1 = ToString date2 /\ ToString time1 = ToString time2.
Proof.
  intros Hd1 Ht1 Hd2 Ht2.
  apply test_true_inv in Hd1 as (d1 & Ed1 & Md1). apply test_true_inv in Ht1 as (t1 & Et1 & _).
  apply test_true_inv in Hd2 as (d2 & Ed2 & Md2). apply test_true_inv in Ht2 as (t2 & Et2 & _).
  unfold makeDateTimeKey. rewrite Ed1, Et1, Ed2, Et2. intros [= <-] [= Hkey].
  apply (f_equal chars) in Hkey. rewrite !chars_append in Hkey.
  apply app_same_length_inj in Hkey as [Hd Ht].
  - apply chars_inj in Hd. simpl in Ht. injection Ht as Ht. apply chars_inj in Ht.
    now subst.
  - now rewrite (matches_length _ _ Md1), (matches_length _ _ Md2).
Qed.

Lemma slot_key_injective_witness :
  ToString (Some (JArr [JStr "2025-06-01"])) = ToString (str "2025-06-01") /\
  ToString (str "10:00") = ToString (str "10:00").
Proof.
  apply (slot_key_injective (Some (JArr [JStr "2025-06-01"])) (str "10:00")
                            (str "2025-06-01") (str "10:00") "2025-06-01 10:00");
    reflexivity.
Defined.

(** ** Invariants of the stored records *)

Lemma post_api_requests_stored b c d :
  stored (snd (post_api_requests b c d)) = stored d \/
  exists r,
    post_api_requests b c d = (Reply 201 (RequestJson r), snd (post_api_requests b c d)) /\
    stored (snd (post_api_requests b c d)) = r :: stored d.
Proof.
  destruct (post_api_requests b c d) as [out d'] eqn:H. simpl.
  destruct (succeeded out) eqn:Hout.
  - right. pose proof H as H'. rewrite post_api_requests_eq in H'.
    split_cases H'; injection H' as <- <-; try discriminate Hout.
    eexists. split; reflexivity.
  - left. destruct (post_api_requests_unsaved _ _ _ _ _ H Hout) as [[-> | ->] _];
      [reflexivity | apply stored_repaired].
Qed.

Lemma patch_api_admin_requests_id_stored id' st d :
  stored (snd (patch_api_admin_requests_id id' st d)) = stored d \/
  exists s pre x post,
    In s allowed /\ stored d = pre ++ x :: post /\
    (forall y, In y pre -> id y <> id') /\ id x = id' /\
    stored (snd (patch_api_admin_requests_id id' st d)) = pre ++ with_status s x :: post.
Proof.
  destruct (patch_api_admin_requests_id_cases id' st d)
    as [[_ E] | [(s & _ & _ & E) | (s & pre & x & post & Hs & Hrows & Hpre & Hx & E)]];
    rewrite E; simpl.
  - now left.
  - left. apply stored_repaired.
  - right. exists s, pre, x, post. apply allowed_has_iff in Hs as [_ Hs]. auto.
Qed.

Lemma get_api_check_stored date time d :
  stored (snd (get_api_check date time d)) = stored d.
Proof.
  destruct (get_api_check date time d) as [out d'] eqn:H. simpl.
  now destruct (get_api_check_pure _ _ _ _ _ H) as (Hs & _).
Qed.

Section Invariant.

Variable P : request -> bool.

Hypothesis P_created :
  forall b c d r d',
    post_api_requests b c d = (Reply 201 (RequestJson r), d') -> P r = true.

Hypothesis P_with_status :
  forall s r, In s allowed -> P r = true -> P (with_status s r) = true.

Lemma serve_keeps c d :
  forallb P (stored d) = true -> forallb P (stored (snd (serve c d))) = true.
Proof.
  intros HP. destruct c as [date time | b c | | id' st]; simpl.
  - now rewrite get_api_check_stored.
  - destruct (post_api_requests_stored b c d) as [-> | (r & Hr & ->)]; [exact HP|].
    simpl. now rewrite HP, (P_created _ _ _ _ _ Hr).
  - rewrite get_api_admin_requests_eq. simpl. now rewrite stored_repaired.
  - destruct (patch_api_admin_requests_id_stored id' st d)
      as [-> | (s & pre & x & post & Hs & Hrows & _ & _ & ->)]; [exact HP|].
    rewrite Hrows in HP. rewrite forallb_app in *. simpl in *.
    apply andb_true_iff in HP as [Hpre HP]. apply andb_true_iff in HP as [Hx Hpost].
    now rewrite Hpre, Hpost, P_with_status.
Qed.

Lemma run_keeps calls d :
  forallb P (stored d) = true -> forallb P (stored (run calls d)) = true.
Proof.
  revert d. induction calls as [|c calls IH]; intros d HP; simpl; auto using serve_keeps.
Qed.

End Invariant.

Lemma slot_ok_created b c d r d' :
  post_api_requests b c d = (Reply 201 (RequestJson r), d') -> slot_ok r = true.
Proof.
  intros H.
  destruct (post_api_requests_201 _ _ _ _ _ H)
    as (key & beds & baths & _ & Hdate & Htime & Hkey & _ & _ & _ & -> & _).
  unfold slot_ok. cbn [created date time dateTime].
  rewrite Hkey, Hdate, Htime. apply String.eqb_refl.
Qed.

Lemma slot_ok_with_status s r : slot_ok r = true -> slot_ok (with_status s r) = true.
Proof. intros H. exact H. Qed.

Lemma slot_ok_shape r :
  slot_ok r = true -> matches slot_re (chars (dateTime r)) = true.
Proof.
  unfold slot_ok, makeDateTimeKey.
  destruct (isValidDateYYYYMMDD (date r)) as [[|]|] eqn:Hd;
    destruct (isValidTimeHHMM (time r)) as [[|]|] eqn:Ht;
    destruct (ToString (date r)) as [ds|] eqn:Eds;
    destruct (ToString (time r)) as [ts|] eqn:Ets; try discriminate.
  intros Hkey. apply String.eqb_eq in Hkey. rewrite <- Hkey.
  apply test_true_inv in Hd as (ds' & Eds' & Md). apply test_true_inv in Ht as (ts' & Ets' & Mt).
  rewrite Eds in Eds'. rewrite Ets in Ets'. injection Eds' as <-. injection Ets' as <-.
  rewrite !chars_append. unfold slot_re. apply matches_app; [exact Md|].
  simpl chars at 1. simpl app. cbn [matches atom_matches].
  rewrite Mt. reflexivity.
Qed.

(** X4: the dateTime of every stored record stays the key of its own date
    and time.  A record that a creation answers with has, as dateTime, the
    key made of its date and time, and both pass their format check; no
    call changes that for any stored record; and such a dateTime always has
    the 16 characters of "dddd-dd-dd dd:dd". *)
Theorem slot_keys_stay_consistent :
  (forall b c d r d',
      post_api_requests b c d = (Reply 201 (RequestJson r), d') -> slot_ok r = true) /\
  (forall calls d,
      forallb slot_ok (stored d) = true ->
      forallb slot_ok (stored (run calls d)) = true) /\
  (forall r, slot_ok r = true ->
     matches slot_re (chars (dateTime r)) = true /\
     List.length (chars (dateTime r)) = 16%nat).
Proof.
  split; [exact slot_ok_created|]. split.
  - intros calls d. apply run_keeps; [exact slot_ok_created|].
    intros s r _. apply slot_ok_with_status.
  - intros r H. pose proof (slot_ok_shape r H) as Hshape.
    split; [exact Hshape | exact (matches_length _ _ Hshape)].
Qed.

Lemma slot_keys_stay_consistent_witness :
  slot_ok (created array_date_body sample_clock "2025-06-01 10:00"
                   (Fin (int 3)) (Fin (int 2))) = true /\
  forallb slot_ok
    (stored (run [CallPatch "8f3a1c09d2196f0a1b2c3" (str "completed");
                  CallCreate (with_slot (str "2025-06-02") (str "14:30") sample_body)
                             later_clock] booked_disk)) = true.
Proof.
  destruct slot_keys_stay_consistent as (H1 & H2 & _). split.
  - apply (H1 array_date_body sample_clock empty_disk _
              (snd (post_api_requests array_date_body sample_clock empty_disk))).
    reflexivity.
  - apply H2. reflexivity.
Defined.

Lemma status_ok_iff r : status_ok r = true <-> In (status r) allowed.
Proof.
  unfold status_ok. rewrite existsb_exists. split.
  - intros (s & Hin & Heq). apply String.eqb_eq in Heq. now rewrite Heq.
  - intros Hin. exists (status r). split; [exact Hin | apply String.eqb_refl].
Qed.

(** X5: statuses stay within the four of the admin transition.  A created
    record is pending; if every stored record has one of the statuses
    pending, confirmed, completed, cancelled, then so has every stored
    record after any calls. *)
Theorem statuses_stay_allowed :
  (forall b c d r d',
      post_api_requests b c d = (Reply 201 (RequestJson r), d') ->
      status r = "pending") /\
  (forall calls d,
      (forall r, In r (stored d) -> In (status r) allowed) ->
      forall r, In r (stored (run calls d)) -> In (status r) allowed).
Proof.
  split.
  - intros b c d r d' H.
    destruct (post_api_requests_201 _ _ _ _ _ H)
      as (key & beds & baths & _ & _ & _ & _ & _ & _ & _ & -> & _).
    reflexivity.
  - intros calls d Hd r Hr. apply status_ok_iff.
    assert (Hall : forallb status_ok (stored (run calls d)) = true).
    { apply run_keeps.
      - intros b c d0 r0 d' H.
        destruct (post_api_requests_201 _ _ _ _ _ H)
          as (key & beds & baths & _ & _ & _ & _ & _ & _ & _ & -> & _).
        reflexivity.
      - intros s r0 Hs _. apply status_ok_iff. exact Hs.
      - apply forallb_forall. intros x Hx. apply status_ok_iff. auto. }
    rewrite forallb_forall in Hall. auto.
Qed.

Lemma statuses_stay_allowed_witness :
  In (status (with_status "completed"
                (created sample_body sample_clock "2025-06-01 10:00"
                         (Fin (int 3)) (Fin (int 2))))) allowed.
Proof.
  destruct statuses_stay_allowed as (_ & H).
  apply (H [CallPatch "8f3a1c09d2196f0a1b2c3" (str "completed");
            CallPatch "8f3a1c09d2196f0a1b2c3" (str "archived")] booked_disk).
  - intros r [<- | []]. left. reflexivity.
  - left. reflexivity.
Defined.

(** ** Availability and creation agree *)

(** X6: the availability check predicts the creation.  For a body whose
    required fields are filled in, on the same disk: when the check of its
    date and time is answered 400, the creation is answered 400 with the
    same message; when the check says the slot is taken, the creation is
    answered 409, and conversely; when it says the slot is free, the
    creation is answered 201 with the key of the check as dateTime (its
    room counts being convertible). *)
Theorem check_predicts_creation (b : body) (c : clock) (d : disk) :
  filled b = true ->
  (forall msg d',
      get_api_check (body_date b) (body_time b) d = (Reply 400 (ErrorJson msg), d') ->
      post_api_requests b c d = (Reply 400 (ErrorJson msg), d)) /\
  (forall available key d',
      get_api_check (body_date b) (body_time b) d
      = (Reply 200 (CheckJson available key), d') ->
      (available = false <->
       post_api_requests b c d
       = (Reply 409 (ErrorJson "That date/time is already booked."), repaired d)) /\
      (available = true ->
       forall beds baths,
         Number (or_else (body_bedrooms b) zero) = Some beds ->
         Number (or_else (body_bathrooms b) zero) = Some baths ->
         exists r d'',
           post_api_requests b c d = (Reply 201 (RequestJson r), d'') /\
           dateTime r = key)).
Proof.
  intros Hb.
  assert (Hdate : ToBoolean (body_date b) = true).
  { unfold filled in Hb. rewrite forallb_forall in Hb. apply Hb.
    unfold required. simpl. auto 10. }
  assert (Htime : ToBoolean (body_time b) = true).
  { unfold filled in Hb. rewrite forallb_forall in Hb. apply Hb.
    unfold required. simpl. auto 10. }
  rewrite get_api_check_eq, post_api_requests_eq, Hb, Hdate, Htime. cbn [negb orb].
  split.
  - intros msg d' H. split_cases H; try discriminate H; injection H as <- <-; reflexivity.
  - intros available key d' H.
    destruct (isValidDateYYYYMMDD (body_date b)) as [[|]|]; try discriminate H.
    destruct (isValidTimeHHMM (body_time b)) as [[|]|]; try discriminate H.
    destruct (makeDateTimeKey (body_date b) (body_time b)) as [k|]; try discriminate H.
    injection H as <- <- <-.
    destruct (some (occupies k) (stored d)); simpl; split.
    + split; reflexivity.
    + discriminate.
    + split; [discriminate|]. intros H. split_cases H; discriminate H.
    + intros _ beds baths -> ->. eexists. eexists. split; reflexivity.
Qed.

Lemma check_predicts_creation_witness :
  (false = false <->
   post_api_requests sample_body later_clock booked_disk
   = (Reply 409 (ErrorJson "That date/time is already booked."),
      repaired booked_disk)) /\
  post_api_requests (with_slot (str "2025-6-1") (str "10:00") sample_body)
                    sample_clock booked_disk
  = (Reply 400 (ErrorJson "Date must be YYYY-MM-DD."), booked_disk).
Proof.
  split.
  - apply (check_predicts_creation sample_body later_clock booked_disk eq_refl)
      with (key := "2025-06-01 10:00") (d' := booked_disk).
    reflexivity.
  - apply (check_predicts_creation (with_slot (str "2025-6-1") (str "10:00") sample_body)
                                   sample_clock booked_disk eq_refl)
      with (d' := booked_disk).
    reflexivity.
Defined.

(** X7: a booking closes its slot and its cancellation reopens it.  Right
    after a creation is answered 201, the availability check of its date
    and time says the slot is taken, with the dateTime of the record as
    key; once the record has been cancelled through the admin transition,
    the same check says the slot is free. *)
Theorem booking_closes_and_cancellation_reopens (b : body) (c : clock) (d d1 : disk)
    (r : request) :
  post_api_requests b c d = (Reply 201 (RequestJson r), d1) ->
  get_api_check (body_date b) (body_time b) d1
  = (Reply 200 (CheckJson false (dateTime r)), d1) /\
  exists d2,
    patch_api_admin_requests_id (id r) (str "cancelled") d1
    = (Reply 200 (RequestJson (with_status "cancelled" r)), d2) /\
    get_api_check (body_date b) (body_time b) d2
    = (Reply 200 (CheckJson true (dateTime r)), d2).
Proof.
  intros H.
  destruct (post_api_requests_201 _ _ _ _ _ H)
    as (key & beds & baths & Hb & Hdate & Htime & Hkey & Hfree & _ & _ & Hr & Hd1).
  assert (Hdt : dateTime r = key) by (rewrite Hr; reflexivity).
  assert (Hst : status r = "pending") by (rewrite Hr; reflexivity).
  assert (Hd : ToBoolean (body_date b) = true).
  { unfold filled in Hb. rewrite forallb_forall in Hb. apply Hb.
    unfold required. simpl. auto 10. }
  assert (Ht : ToBoolean (body_time b) = true).
  { unfold filled in Hb. rewrite forallb_forall in Hb. apply Hb.
    unfold required. simpl. auto 10. }
  split.
  - rewrite get_api_check_eq, Hd, Ht, Hdate, Htime, Hkey. cbn [negb orb].
    rewrite Hd1 at 1 2. unfold stored, repaired. cbn [REQUESTS_FILE some existsb].
    unfold occupies at 1. rewrite Hdt, Hst, String.eqb_refl. simpl. rewrite Hd1.
    reflexivity.
  - eexists. split.
    + apply (patch_found (id r) (str "cancelled") "cancelled" d1 [] r (stored d));
        [reflexivity | rewrite Hd1; reflexivity | intros y [] | reflexivity].
    + rewrite get_api_check_eq, Hd, Ht, Hdate, Htime, Hkey. cbn [negb orb].
      unfold stored at 1, repaired. cbn [REQUESTS_FILE some existsb app].
      unfold occupies at 1. cbn [with_status status dateTime].
      rewrite andb_false_r. cbn [orb]. fold (some (occupies key) (stored d)).
      rewrite Hfree, Hdt. reflexivity.
Qed.

Lemma booking_closes_and_cancellation_reopens_witness :
  get_api_check (str "2025-06-01") (str "10:00") booked_disk
  = (Reply 200 (CheckJson false "2025-06-01 10:00"), booked_disk) /\
  exists d2,
    patch_api_admin_requests_id "8f3a1c09d2196f0a1b2c3" (str "cancelled") booked_disk
    = (Reply 200 (RequestJson
                    (with_status "cancelled"
                       (created sample_body sample_clock "2025-06-01 10:00"
                                (Fin (int 3)) (Fin (int 2))))), d2) /\
    get_api_check (str "2025-06-01") (str "10:00") d2
    = (Reply 200 (CheckJson true "2025-06-01 10:00"), d2).
Proof.
  apply (booking_closes_and_cancellation_reopens
           sample_body sample_clock no_disk booked_disk
           (created sample_body sample_clock "2025-06-01 10:00"
                    (Fin (int 3)) (Fin (int 2)))).
  reflexivity.
Defined.

(** ** Records are only added *)

Lemma grown_refl n rows : grown n rows rows.
Proof. exists [], rows. split; [reflexivity|]. split; [apply Forall2_same_refl | simpl; lia]. Qed.

Lemma grown_weaken n m old new : (n <= m)%nat -> grown n old new -> grown m old new.
Proof. intros Hle (fresh & old' & -> & Hsame & Hlen). exists fresh, old'. repeat split; auto; lia. Qed.

Lemma grown_trans n m l1 l2 l3 :
  grown n l1 l2 -> grown m l2 l3 -> grown (m + n) l1 l3.
Proof.
  intros (f1 & o1 & -> & H1 & L1) (f2 & o2 & -> & H2 & L2).
  apply Forall2_app_inv_l in H2 as (f1' & o1' & Hf & Ho & ->).
  exists (f2 ++ f1'), o1'. split; [now rewrite app_assoc|].
  split; [eapply Forall2_same_trans; eassumption|].
  rewrite length_app, <- (Forall2_length Hf). lia.
Qed.

Lemma serve_grown c d :
  grown (creations [c]) (stored d) (stored (snd (serve c d))).
Proof.
  destruct c as [date time | b c | | id' st]; simpl.
  - rewrite get_api_check_stored. apply grown_refl.
  - destruct (post_api_requests_stored b c d) as [-> | (r & _ & ->)];
      [apply grown_refl|].
    exists [r], (stored d). split; [reflexivity|].
    split; [apply Forall2_same_refl | simpl; lia].
  - rewrite get_api_admin_requests_eq. simpl. rewrite stored_repaired. apply grown_refl.
  - destruct (patch_api_admin_requests_id_stored id' st d)
      as [-> | (s & pre & x & post & _ & -> & _ & _ & ->)]; [apply grown_refl|].
    exists [], (pre ++ with_status s x :: post). split; [reflexivity|].
    split; [|simpl; lia].
    apply Forall2_app; [apply Forall2_same_refl|].
    constructor; [apply with_status_same | apply Forall2_same_refl].
Qed.

Lemma run_grown calls d : grown (creations calls) (stored d) (stored (run calls d)).
Proof.
  revert d. induction calls as [|c calls IH]; intros d; simpl run.
  - apply grown_refl.
  - pose proof (grown_trans _ _ _ _ _ (serve_grown c d) (IH (snd (serve c d)))) as H.
    eapply grown_weaken; [|exact H].
    destruct c; simpl; lia.
Qed.

(** X8: no call removes or reorders a record.  After any sequence of calls
    the stored sequence is the earlier one, each record in place with all
    its fields but possibly its status, behind the records put in front
    since; these are at most as many as the creations among the calls.  So
    the number of stored records never decreases, and grows by at most one
    per creation. *)
Theorem records_are_only_added (calls : list call) (d : disk) :
  (exists fresh old',
      stored (run calls d) = fresh ++ old' /\
      Forall2 same_but_status (stored d) old' /\
      (List.length fresh <= creations calls)%nat) /\
  (List.length (stored d) <= List.length (stored (run calls d))
   <= List.length (stored d) + creations calls)%nat.
Proof.
  destruct (run_grown calls d) as (fresh & old' & E & Hsame & Hlen).
  split; [exists fresh, old'; auto|].
  rewrite E, length_app, <- (Forall2_length Hsame). lia.
Qed.

(** ** Transitions of the status *)

Lemma with_status_back s r : with_status (status r) (with_status s r) = r.
Proof. destruct r. reflexivity. Qed.

Lemma with_status_twice s s' r : with_status s (with_status s' r) = with_status s r.
Proof. reflexivity. Qed.

(** X9: a transition can be undone, and repeating one changes nothing.
    When the first record with the given id has an allowed status, setting
    it to an allowed status and then back to the one it had restores the
    stored sequence exactly; setting the same status a second time leaves
    the stored sequence as the first transition left it.  A transition to
    the status the record already has is answered 200, changes no record
    and still rewrites the file. *)
Theorem transition_round_trip (id' s : string) (d : disk) (pre post : list request)
    (x : request) :
  stored d = pre ++ x :: post ->
  (forall y, In y pre -> id y <> id') -> id x = id' ->
  In s allowed -> In (status x) allowed ->
  stored (snd (patch_api_admin_requests_id
                 id' (str (status x))
                 (snd (patch_api_admin_requests_id id' (str s) d)))) = stored d /\
  stored (snd (patch_api_admin_requests_id
                 id' (str s) (snd (patch_api_admin_requests_id id' (str s) d))))
  = stored (snd (patch_api_admin_requests_id id' (str s) d)) /\
  patch_api_admin_requests_id id' (str (status x)) d
  = (Reply 200 (RequestJson x),
     {| REQUESTS_FILE := Rows (stored d); saved := stored d :: saved d |}).
Proof.
  intros Hrows Hpre Hx Hs Hsx.
  assert (As : allowed_has (str s) = Some s) by (apply allowed_has_iff; auto).
  assert (Ax : allowed_has (str (status x)) = Some (status x))
    by (apply allowed_has_iff; auto).
  rewrite (patch_found id' (str s) s d pre x post As Hrows Hpre Hx). cbn [snd].
  split; [|split].
  - rewrite (patch_found id' (str (status x)) (status x) _ pre (with_status s x) post Ax);
      [|reflexivity | exact Hpre | exact Hx].
    cbn [snd stored REQUESTS_FILE]. rewrite Hrows.
    change (status x) with (status x). now rewrite with_status_back.
  - rewrite (patch_found id' (str s) s _ pre (with_status s x) post As);
      [|reflexivity | exact Hpre | exact Hx].
    reflexivity.
  - rewrite (patch_found id' (str (status x)) (status x) d pre x post Ax Hrows Hpre Hx).
    replace (with_status (status x) x) with x by (destruct x; reflexivity).
    rewrite Hrows. reflexivity.
Qed.

Lemma transition_round_trip_witness :
  stored (snd (patch_api_admin_requests_id
                 "8f3a1c09d2196f0a1b2c3" (str "pending")
                 (snd (patch_api_admin_requests_id
                         "8f3a1c09d2196f0a1b2c3" (str "confirmed") booked_disk))))
  = stored booked_disk.
Proof.
  apply (transition_round_trip
           "8f3a1c09d2196f0a1b2c3" "confirmed" booked_disk [] []
           (created sample_body sample_clock "2025-06-01 10:00"
                    (Fin (int 3)) (Fin (int 2)))).
  - reflexivity.
  - intros y [].
  - reflexivity.
  - simpl. auto.
  - simpl. auto.
Defined.

(** ** Records that share an id *)

Lemma split_two_ways {A} (pre front : list A) x y post2 post :
  pre ++ x :: post2 = front ++ y :: post ->
  (exists m, front = pre ++ x :: m /\ post2 = m ++ y :: post) \/
  (pre = front /\ x = y /\ post2 = post) \/
  (exists m, pre = front ++ y :: m /\ post = m ++ x :: post2).
Proof.
  revert front. induction pre as [|a pre IH]; intros [|b front]; simpl; intros H.
  - injection H as -> ->. right. left. auto.
  - injection H as -> ->. left. exists front. auto.
  - injection H as -> <-. right. right. exists pre. auto.
  - injection H as -> H. destruct (IH front H) as [(m & -> & ->) | [(-> & -> & ->) | (m & -> & ->)]].
    + left. exists m. auto.
    + right. left. auto.
    + right. right. exists m. auto.
Qed.

Lemma serve_keeps_shadowed c d front y post :
  stored d = front ++ y :: post ->
  (exists z, In z front /\ id z = id y) ->
  exists front' post',
    stored (snd (serve c d)) = front' ++ y :: post' /\
    List.length post' = List.length post /\
    exists z, In z front' /\ id z = id y.
Proof.
  intros Hrows (z & Hz & Hid).
  assert (Hsame : stored (snd (serve c d)) = stored d ->
                  exists front' post',
                    stored (snd (serve c d)) = front' ++ y :: post' /\
                    List.length post' = List.length post /\
                    exists z, In z front' /\ id z = id y).
  { intros ->. exists front, post. eauto. }
  destruct c as [date time | b c | | id' st]; simpl in *.
  - apply Hsame, get_api_check_stored.
  - destruct (post_api_requests_stored b c d) as [E | (r & _ & E)]; [auto|].
    rewrite E, Hrows. exists (r :: front), post. split; [reflexivity|].
    split; [reflexivity|]. exists z. split; [now right | exact Hid].
  - apply Hsame. rewrite get_api_admin_requests_eq. apply stored_repaired.
  - destruct (patch_api_admin_requests_id_stored id' st d)
      as [E | (s & pre & x & post2 & _ & Hsplit & Hpre & Hx & E)]; [auto|].
    rewrite E. rewrite Hrows in Hsplit. symmetry in Hsplit.
    destruct (split_two_ways _ _ _ _ _ _ Hsplit)
      as [(m & Hf & ->) | [(-> & -> & ->) | (m & -> & Hp)]].
    + exists (pre ++ with_status s x :: m), post.
      split; [now rewrite <- app_assoc|]. split; [reflexivity|].
      rewrite Hf in Hz. apply in_app_or in Hz as [Hz | [<- | Hz]].
      * exists z. split; [apply in_or_app; now left | exact Hid].
      * exists (with_status s x). split; [apply in_or_app; right; now left | exact Hid].
      * exists z. split; [apply in_or_app; right; now right | exact Hid].
    + exfalso. apply (Hpre z Hz). congruence.
    + exists front, (m ++ with_status s x :: post2).
      split; [now rewrite <- app_assoc|].
      split; [rewrite Hp, !length_app; reflexivity|]. eauto.
Qed.

(** X10: a record behind another with the same id can no longer be
    changed.  The transition applies to the first record with the given
    id, and creations put their records in front: when a stored record has
    before it a record with the same id, it is the same after any sequence
    of calls, status included, at the same distance from the end, and
    still has such a record before it. *)
Theorem shadowed_record_is_frozen (calls : list call) (d : disk)
    (front post : list request) (y : request) :
  stored d = front ++ y :: post ->
  (exists z, In z front /\ id z = id y) ->
  exists front' post',
    stored (run calls d) = front' ++ y :: post' /\
    List.length post' = List.length post /\
    exists z, In z front' /\ id z = id y.
Proof.
  revert d front post. induction calls as [|c calls IH]; intros d front post Hrows Hz.
  - exists front, post. auto.
  - simpl. destruct (serve_keeps_shadowed c d front y post Hrows Hz)
      as (front1 & post1 & Hrows1 & Hlen1 & Hz1).
    destruct (IH _ _ _ Hrows1 Hz1) as (front2 & post2 & Hrows2 & Hlen2 & Hz2).
    exists front2, post2. split; [exact Hrows2|]. split; [congruence | exact Hz2].
Qed.

Lemma shadowed_record_is_frozen_witness :
  exists front' post',
    stored (run [CallPatch "8f3a1c09d2196f0a1b2c3" (str "cancelled");
                 CallPatch "8f3a1c09d2196f0a1b2c3" (str "completed")] twin_disk)
    = front' ++ created sample_body sample_clock "2025-06-01 10:00"
                        (Fin (int 3)) (Fin (int 2)) :: post' /\
    List.length post' = O.
Proof.
  destruct (shadowed_record_is_frozen
              [CallPatch "8f3a1c09d2196f0a1b2c3" (str "cancelled");
               CallPatch "8f3a1c09d2196f0a1b2c3" (str "completed")] twin_disk
              [created (with_slot (str "2025-06-02") (str "14:30") sample_body)
                       sample_clock "2025-06-02 14:30" (Fin (int 3)) (Fin (int 2))]
              []
              (created sample_body sample_clock "2025-06-01 10:00"
                       (Fin (int 3)) (Fin (int 2))))
    as (front' & post' & H1 & H2 & _).
  - reflexivity.
  - eexists. split; [left; reflexivity | reflexivity].
  - exists front', post'. split; [exact H1 | exact H2].
Defined.

(** ** One booking per slot *)

Lemma filter_none {A} (f : A -> bool) l : some f l = false -> filter f l = [].
Proof.
  rewrite some_false_iff. induction l as [|a l IH]; simpl; intros H; [reflexivity|].
  rewrite (H a (or_introl eq_refl)). apply IH. intros x Hx. apply H. now right.
Qed.

Lemma single_booked_created b c d r d' :
  post_api_requests b c d = (Reply 201 (RequestJson r), d') ->
  single_booked (stored d) -> single_booked (r :: stored d).
Proof.
  intros H Hd key'.
  destruct (post_api_requests_201 _ _ _ _ _ H)
    as (key & beds & baths & _ & _ & _ & _ & Hfree & _ & _ & Hr & _).
  simpl. destruct (occupies key' r) eqn:Ho; [|apply Hd].
  apply occupies_iff in Ho as [Hk _]. rewrite Hr in Hk. cbn [created dateTime] in Hk.
  subst key'. rewrite (filter_none _ _ Hfree). simpl. lia.
Qed.

Lemma single_booked_cancelled pre x post :
  single_booked (pre ++ x :: post) ->
  single_booked (pre ++ with_status "cancelled" x :: post).
Proof.
  intros H key. specialize (H key). rewrite filter_app, length_app in *. simpl in *.
  unfold occupies at 2. cbn [with_status status]. rewrite andb_false_r.
  destruct (occupies key x); simpl in *; lia.
Qed.

Lemma serve_keeps_single_booked c d :
  quiet c = true -> single_booked (stored d) -> single_booked (stored (snd (serve c d))).
Proof.
  intros Hq Hd. destruct c as [date time | b c | | id' st]; simpl in *.
  - now rewrite get_api_check_stored.
  - destruct (post_api_requests_stored b c d) as [-> | (r & Hr & ->)]; [exact Hd|].
    exact (single_booked_created _ _ _ _ _ Hr Hd).
  - rewrite get_api_admin_requests_eq. simpl. now rewrite stored_repaired.
  - destruct (patch_api_admin_requests_id_cases id' st d)
      as [[_ E] | [(s & _ & _ & E) | (s & pre & x & post & Hs & Hrows & _ & _ & E)]];
      rewrite E; simpl; rewrite ?stored_repaired; try exact Hd.
    rewrite Hs in Hq. apply String.eqb_eq in Hq. subst s.
    unfold stored. simpl. rewrite Hrows in Hd. now apply single_booked_cancelled.
Qed.

(** X11: creations and cancellations keep one booking per slot.  If no
    slot key is held by two stored records that are not cancelled, this is
    still so after any sequence of availability checks, creations, listings
    and status transitions whose target, when it is an allowed status, is
    "cancelled". *)
Theorem one_booking_per_slot (calls : list call) (d : disk) :
  forallb quiet calls = true ->
  single_booked (stored d) ->
  single_booked (stored (run calls d)).
Proof.
  revert d. induction calls as [|c calls IH]; intros d Hq Hd; simpl in *; [exact Hd|].
  apply andb_true_iff in Hq as [Hc Hq].
  apply IH; [exact Hq|]. now apply serve_keeps_single_booked.
Qed.

Lemma one_booking_per_slot_witness :
  single_booked
    (stored (run [CallCreate sample_body later_clock;
                  CallPatch "8f3a1c09d2196f0a1b2c3" (str "cancelled");
                  CallCreate sample_body later_clock] booked_disk)).
Proof.
  apply (one_booking_per_slot
           [CallCreate sample_body later_clock;
            CallPatch "8f3a1c09d2196f0a1b2c3" (str "cancelled");
            CallCreate sample_body later_clock] booked_disk).
  - reflexivity.
  - intros key. change (stored booked_disk)
      with [created sample_body sample_clock "2025-06-01 10:00"
                    (Fin (int 3)) (Fin (int 2))].
    cbn [filter].
    destruct (occupies key (created sample_body sample_clock "2025-06-01 10:00"
                                    (Fin (int 3)) (Fin (int 2)))); simpl; lia.
Defined.

(** X12: bringing a cancelled record back can double-book its slot.  The
    transition does not run the double-booking test: after a record has
    been created and cancelled and a second record has been created for
    the same slot under another id, setting the first record to pending,
    confirmed or completed is answered 200, and two stored records then
    hold the same slot. *)
Theorem reactivation_double_books (b1 b2 : body) (c1 c2 : clock) (d d1 d2 d3 : disk)
    (r1 r2 : request) (out : step Empty_set) (s : string) :
  post_api_requests b1 c1 d = (Reply 201 (RequestJson r1), d1) ->
  patch_api_admin_requests_id (id r1) (str "cancelled") d1 = (out, d2) ->
  post_api_requests b2 c2 d2 = (Reply 201 (RequestJson r2), d3) ->
  dateTime r2 = dateTime r1 -> id r2 <> id r1 ->
  In s allowed -> s <> "cancelled" ->
  exists d4,
    patch_api_admin_requests_id (id r1) (str s) d3
    = (Reply 200 (RequestJson (with_status s r1)), d4) /\
    stored d4 = r2 :: with_status s r1 :: stored d /\
    occupies (dateTime r1) r2 = true /\
    occupies (dateTime r1) (with_status s r1) = true /\
    ~ single_booked (stored d4).
Proof.
  intros H1 Hcancel H2 Hslot Hid Hs Hnot.
  assert (Hd1 : stored d1 = r1 :: stored d).
  { destruct (post_api_requests_201 _ _ _ _ _ H1)
      as (? & ? & ? & _ & _ & _ & _ & _ & _ & _ & _ & ->). reflexivity. }
  rewrite (patch_found (id r1) (str "cancelled") "cancelled" d1 [] r1 (stored d))
    in Hcancel; [|reflexivity | exact Hd1 | intros y [] | reflexivity].
  injection Hcancel as _ <-.
  destruct (post_api_requests_201 _ _ _ _ _ H2)
    as (key & beds & baths & _ & _ & _ & _ & _ & _ & _ & Hr2 & Hd3).
  assert (Hst2 : status r2 = "pending") by (rewrite Hr2; reflexivity).
  assert (As : allowed_has (str s) = Some s) by (apply allowed_has_iff; auto).
  assert (Ho2 : occupies (dateTime r1) r2 = true).
  { apply occupies_iff. split; [exact Hslot | rewrite Hst2; discriminate]. }
  assert (Ho1 : occupies (dateTime r1) (with_status s r1) = true).
  { apply occupies_iff. split; [reflexivity | exact Hnot]. }
  eexists. split; [|split; [|split; [|split]]].
  - apply (patch_found (id r1) (str s) s d3 [r2] (with_status "cancelled" r1) (stored d));
      [exact As | rewrite Hd3; reflexivity | | reflexivity].
    intros y [<- | []]. exact Hid.
  - reflexivity.
  - exact Ho2.
  - exact Ho1.
  - intros Hsingle. specialize (Hsingle (dateTime r1)).
    cbn [stored REQUESTS_FILE app filter] in Hsingle.
    rewrite with_status_twice, Ho2, Ho1 in Hsingle. simpl in Hsingle. lia.
Qed.

Lemma reactivation_double_books_witness :
  exists d4,
    patch_api_admin_requests_id "8f3a1c09d2196f0a1b2c3" (str "confirmed")
      (snd (post_api_requests
              sample_body later_clock
              (snd (patch_api_admin_requests_id "8f3a1c09d2196f0a1b2c3"
                                                (str "cancelled") booked_disk))))
    = (Reply 200 (RequestJson
                    (with_status "confirmed"
                       (created sample_body sample_clock "2025-06-01 10:00"
                                (Fin (int 3)) (Fin (int 2))))), d4) /\
    ~ single_booked (stored d4).
Proof.
  destruct (reactivation_double_books
              sample_body sample_body sample_clock later_clock no_disk booked_disk
              (snd (patch_api_admin_requests_id "8f3a1c09d2196f0a1b2c3"
                                                (str "cancelled") booked_disk))
              (snd (post_api_requests
                      sample_body later_clock
                      (snd (patch_api_admin_requests_id
                              "8f3a1c09d2196f0a1b2c3" (str "cancelled") booked_disk))))
              (created sample_body sample_clock "2025-06-01 10:00"
                       (Fin (int 3)) (Fin (int 2)))
              (created sample_body later_clock "2025-06-01 10:00"
                       (Fin (int 3)) (Fin (int 2)))
              (fst (patch_api_admin_requests_id "8f3a1c09d2196f0a1b2c3"
                                                (str "cancelled") booked_disk))
              "confirmed")
    as (d4 & H1 & _ & _ & _ & H5).
  - reflexivity.
  - reflexivity.
  - reflexivity.
  - reflexivity.
  - discriminate.
  - simpl. auto.
  - discriminate.
  - exists d4. split; [exact H1 | exact H5].
Defined.

(** ** The estimate in whole dollars *)

Lemma whole_sum base extra beds baths :
  In base [120; 180] -> In extra [0; 60] ->
  -20 <= beds <= 20 -> -20 <= baths <= 20 ->
  stringify_number
    (nadd (nadd (nadd (Fin (int base)) (nmul (Fin (int beds)) (Fin (int 20))))
                (nmul (Fin (int baths)) (Fin (int 15))))
          (Fin (int extra)))
  = JNum (int (base + beds * 20 + baths * 15 + extra)).
Proof.
  intros Hbase Hextra Hbeds Hbaths.
  pose proof (forallb_In _ _ base sums_checked Hbase) as H1.
  pose proof (forallb_In _ _ extra H1 Hextra) as H2.
  pose proof (forallb_In _ _ beds H2 (whole_counts_spec beds Hbeds)) as H3.
  pose proof (forallb_In _ _ baths H3 (whole_counts_spec baths Hbaths)) as H4.
  rewrite (number_eqb_eq _ _ H4).
  apply stringify_whole. simpl in Hbase, Hextra. lia.
Qed.

(** Beyond that range the sum is rounded: 2^53 bedrooms and 2 bathrooms
    give 180143985094820000, not 180143985094819990. *)
Example whole_room_estimate_ex :
  estimateUSD (created (with_rooms (num (2 ^ 53)) (num 2) sample_body) sample_clock
                       "2025-06-01 10:00" (Fin (int (2 ^ 53))) (Fin (int 2)))
  = num 180143985094820000 /\
  whole_estimate (str "standard") (str "residential") (2 ^ 53) 2 = 180143985094819990.
Proof. split; vm_compute; reflexivity. Qed.

(** X13: with whole room counts the estimate is a whole number of dollars.
    When bedrooms and bathrooms are the integers [beds] and [baths], both
    from -20 to 20, the estimate of the created record is the integer
    (180 or 120) + beds * 20 + baths * 15 + (60 or 0): the arithmetic on
    doubles is exact there.  It is at least 120 when the counts are not
    negative, and at most 240 + beds * 20 + baths * 15 in all cases. *)
Theorem whole_room_estimate (b : body) (c : clock) (d d' : disk) (r : request)
    (beds baths : Z) :
  post_api_requests b c d = (Reply 201 (RequestJson r), d') ->
  body_bedrooms b = num beds -> body_bathrooms b = num baths ->
  -20 <= beds <= 20 -> -20 <= baths <= 20 ->
  estimateUSD r
  = num (whole_estimate (body_serviceType b) (body_propertyType b) beds baths) /\
  (0 <= beds -> 0 <= baths ->
   120 <= whole_estimate (body_serviceType b) (body_propertyType b) beds baths) /\
  whole_estimate (body_serviceType b) (body_propertyType b) beds baths
  <= 240 + beds * 20 + baths * 15.
Proof.
  intros H Hbeds Hbaths Rbeds Rbaths.
  destruct (post_api_requests_201 _ _ _ _ _ H)
    as (key & x & y & _ & _ & _ & _ & _ & Hx & Hy & -> & _).
  rewrite Hbeds, Number_num in Hx by assumption.
  rewrite Hbaths, Number_num in Hy by assumption.
  injection Hx as <-. injection Hy as <-.
  unfold whole_estimate. split; [|split].
  - cbn [created estimateUSD]. unfold estimate, base_of, commercial_of, num.
    rewrite whole_sum; try assumption; [reflexivity | |].
    + destruct (strict_eq_string (body_serviceType b) "deep"); simpl; auto.
    + destruct (strict_eq_string (body_propertyType b) "commercial"); simpl; auto.
  - intros Hb Ht.
    destruct (strict_eq_string (body_serviceType b) "deep"),
      (strict_eq_string (body_propertyType b) "commercial"); lia.
  - destruct (strict_eq_string (body_serviceType b) "deep"),
      (strict_eq_string (body_propertyType b) "commercial"); lia.
Qed.

Lemma whole_room_estimate_witness :
  estimateUSD (created sample_body sample_clock "2025-06-01 10:00"
                       (Fin (int 3)) (Fin (int 2)))
  = num (whole_estimate (str "standard") (str "residential") 3 2).
Proof.
  apply (whole_room_estimate sample_body sample_clock no_disk booked_disk
                             (created sample_body sample_clock "2025-06-01 10:00"
                                      (Fin (int 3)) (Fin (int 2))) 3 2);
    (reflexivity || lia).
Defined.

(** ** A file without rows *)

(** X14: a file that holds no rows behaves as an empty store, and the
    first creation replaces it.  When the file is missing, blank,
    unparsable, not an array or an empty array: the listing returns no
    record; every transition with an allowed status is answered 404; every
    date and time that pass their format checks are available; and an
    accepted creation leaves a file that holds its record alone, whatever
    the file held before. *)
Theorem file_without_rows (d : disk) :
  stored d = [] ->
  fst (get_api_admin_requests d) = Reply 200 (RequestsJson []) /\
  (forall id' s, In s allowed ->
     fst (patch_api_admin_requests_id id' (str s) d)
     = Reply 404 (ErrorJson "Not found.")) /\
  (forall date time,
     isValidDateYYYYMMDD date = Some true -> isValidTimeHHMM time = Some true ->
     exists key, fst (get_api_check date time d) = Reply 200 (CheckJson true key)) /\
  (forall b c r d',
     post_api_requests b c d = (Reply 201 (RequestJson r), d') ->
     REQUESTS_FILE d' = Rows [r]).
Proof.
  intros Hd. split; [|split; [|split]].
  - rewrite get_api_admin_requests_eq, Hd. reflexivity.
  - intros id' s Hs.
    rewrite (patch_not_found id' (str s) s d); [reflexivity | |].
    + apply allowed_has_iff. auto.
    + rewrite Hd. intros y [].
  - intros date time Hdate Htime.
    destruct (makeDateTimeKey_defined _ _ _ _ Hdate Htime) as [key Hkey].
    exists key. rewrite get_api_check_eq, Hdate, Htime, Hkey, Hd.
    assert (Hd' : ToBoolean date = true).
    { apply test_true_inv in Hdate as (s & Es & Ms).
      destruct date as [[| [|] | n | t | |]|]; simpl in *; try reflexivity;
        try (injection Es as <-; discriminate Ms).
      - injection Es as <-. unfold NumberToString, number_to_string in Ms.
        destruct (Fin n); try reflexivity; discriminate Ms.
      - injection Es as <-. destruct t; [discriminate Ms | reflexivity]. }
    assert (Ht' : ToBoolean time = true).
    { apply test_true_inv in Htime as (s & Es & Ms).
      destruct time as [[| [|] | n | t | |]|]; simpl in *; try reflexivity;
        try (injection Es as <-; discriminate Ms).
      - injection Es as <-. unfold NumberToString, number_to_string in Ms.
        destruct (Fin n); try reflexivity; discriminate Ms.
      - injection Es as <-. destruct t; [discriminate Ms | reflexivity]. }
    rewrite Hd', Ht'. reflexivity.
  - intros b c r d' H.
    destruct (post_api_requests_201 _ _ _ _ _ H)
      as (? & ? & ? & _ & _ & _ & _ & _ & _ & _ & _ & ->).
    rewrite Hd. reflexivity.
Qed.

Lemma file_without_rows_witness :
  fst (patch_api_admin_requests_id "8f3a1c09d2196f0a1b2c3" (str "cancelled")
                                   {| REQUESTS_FILE := NotArray; saved := [] |})
  = Reply 404 (ErrorJson "Not found.") /\
  REQUESTS_FILE (snd (post_api_requests sample_body sample_clock
                                        {| REQUESTS_FILE := NotArray; saved := [] |}))
  = Rows [created sample_body sample_clock "2025-06-01 10:00"
                  (Fin (int 3)) (Fin (int 2))].
Proof.
  destruct (file_without_rows {| REQUESTS_FILE := NotArray; saved := [] |} eq_refl)
    as (_ & H2 & _ & H4).
  split.
  - apply H2. simpl. auto.
  - apply (H4 sample_body sample_clock). reflexivity.
Defined.

(** ** A date that is not a string *)


